(** * go-postgres-crud: the item handlers of [main.go]

    A shallow embedding of the five HTTP handlers of [main.go]
    ([createItem], [getItems], [getItem], [updateItem], [deleteItem]) and of
    the library calls they make ([strconv.Atoi], [encoding/json],
    [net/http]'s response writer, [database/sql]), followed by the
    properties of the request/response contract.

    Conventions.
    - Go's [int] is the 64-bit one; values are [Z] with the range written
      out where a conversion can overflow.
    - Go's [float64] is Rocq's primitive binary64 [float].
    - A Go [string] is a byte string: Rocq's [string].
    - Tracing spans and CORS do not touch the response or the store and are
      left out. *)

From Stdlib Require Import ZArith Lia PrimFloat SpecFloat FloatOps Ascii String.
From stdpp Require Import gmap strings list.

Local Open Scope Z_scope.
Set Warnings "-register-all".

(** ** Go values shared by the packages *)

Abbreviation float64 := float.

(** [type Item struct] (main.go, lines 29-34). *)
Record Item := mkItem {
  ID : Z;
  Name : string;
  Description : string;
  Price : float64
}.

(** The zero value of [Item], what [var item Item] declares. *)
Definition zeroItem : Item := mkItem 0 "" "" PrimFloat.zero.

Definition with_ID (id : Z) (it : Item) : Item :=
  mkItem id (Name it) (Description it) (Price it).
Definition with_Name (s : string) (it : Item) : Item :=
  mkItem (ID it) s (Description it) (Price it).
Definition with_Description (s : string) (it : Item) : Item :=
  mkItem (ID it) (Name it) s (Price it).
Definition with_Price (f : float64) (it : Item) : Item :=
  mkItem (ID it) (Name it) (Description it) f.

(** Go's [error] values that reach the handlers. *)
Inductive error :=
| SyntaxError (msg : string)
    (* encoding/json: no JSON value could be read (syntax error, EOF) *)
| UnmarshalTypeError (Value Field GoType : string)
    (* encoding/json: a JSON value does not fit the Go type *)
| ErrNoRows
    (* database/sql: sql.ErrNoRows *)
| ScanError (msg : string)
    (* database/sql: Scan got a row of another shape *)
| DriverError (msg : string).
    (* an error reported by the driver or the server *)

(** [err.Error()]. For [UnmarshalTypeError] on a number that does not fit,
    Go's [Value] also carries the literal, which the tree below does not
    keep. *)
Definition ErrorText (e : error) : string :=
  match e with
  | SyntaxError msg => msg
  | UnmarshalTypeError v "" t =>
      "json: cannot unmarshal " +:+ v +:+ " into Go value of type " +:+ t
  | UnmarshalTypeError v f t =>
      "json: cannot unmarshal " +:+ v +:+ " into Go struct field Item." +:+ f
        +:+ " of type " +:+ t
  | ErrNoRows => "sql: no rows in result set"
  | ScanError msg => msg
  | DriverError msg => msg
  end.

(** A value together with Go's [err]. *)
Inductive result (A : Type) :=
| Ok (a : A)
| Err (e : error).
Arguments Ok {A} a.
Arguments Err {A} e.

(** A Go slice, as far as the handlers can tell slices apart: the nil
    slice and a slice with a backing array. *)
Inductive slice (A : Type) :=
| nil_slice
| slice_of (elems : list A).
Arguments nil_slice {A}.
Arguments slice_of {A} elems.

(** The built-in [append(s, x)]. *)
Definition append {A} (s : slice A) (x : A) : slice A :=
  match s with
  | nil_slice => slice_of [x]
  | slice_of l => slice_of (l ++ [x])
  end.

(** ** Package strconv *)

Module strconv.

Definition intSize : Z := 64.
Definition maxInt : Z := 2 ^ (intSize - 1) - 1.
Definition minInt : Z := - 2 ^ (intSize - 1).

Definition in_int (z : Z) : bool := (minInt <=? z) && (z <=? maxInt).

Inductive NumError := ErrSyntax | ErrRange.

(** [ch -= '0'; if ch > 9 { syntax error }] on a byte. *)
Definition digit (ch : ascii) : option Z :=
  let d := (Z.of_N (N_of_ascii ch) - 48) mod 256 in
  if 9 <? d then None else Some d.

(** [n = n*10 + int(ch)] over the bytes of [s]. *)
Fixpoint digits (s : string) (n : Z) : option Z :=
  match s with
  | EmptyString => Some n
  | String ch s' =>
      match digit ch with
      | Some d => digits s' (n * 10 + d)
      | None => None
      end
  end.

(** [strconv.Atoi]: an optional sign, then one or more decimal digits;
    [ErrRange] when the value does not fit [int]. *)
Definition Atoi (s : string) : NumError + Z :=
  let '(neg, s1) :=
    match s with
    | String "-" r => (true, r)
    | String "+" r => (false, r)
    | _ => (false, s)
    end in
  match s1 with
  | EmptyString => inl ErrSyntax
  | _ =>
      match digits s1 0 with
      | None => inl ErrSyntax
      | Some n =>
          let v := if neg then - n else n in
          if in_int v then inr v else inl ErrRange
      end
  end.

(** The decimal digits of [n >= 0], most significant first, in front of
    [acc]. *)
Fixpoint utoa (fuel : nat) (n : Z) (acc : string) : string :=
  match fuel with
  | O => acc
  | S k =>
      let acc' := String (ascii_of_N (Z.to_N (48 + n mod 10))) acc in
      if n <? 10 then acc' else utoa k (n / 10) acc'
  end.

(** [strconv.Itoa] on an [int]. *)
Definition Itoa (i : Z) : string :=
  if i <? 0 then String "-" (utoa 20 (- i) "") else utoa 20 i "".

(** [strconv.ParseFloat(s, 64)] on an integer literal: the nearest
    binary64, ties to even, infinite beyond the range. *)
Definition float_of_Z (z : Z) : float64 :=
  SF2Prim (binary_normalize prec emax z 0 false).

End strconv.

(** ** Package encoding/json *)

Module json.

(** A number literal: [Int neg n] is a literal without fraction or
    exponent, a minus sign when [neg] and the digits of [n]; [Float f] is
    any other literal, [f] being what [strconv.ParseFloat] reads from it
    (infinite when out of range). On output, [Float f] is the literal
    [strconv.AppendFloat] writes for [f]. *)
Inductive Number :=
| Int (neg : bool) (n : N)
| Float (f : float64).

(** The literal of a Go [int]. *)
Definition int_lit (z : Z) : Number := Int (z <? 0) (Z.abs_N z).

Definition int_value (neg : bool) (n : N) : Z :=
  if neg then - Z.of_N n else Z.of_N n.

(** A JSON value. *)
Inductive value :=
| Null
| Bool (b : bool)
| Num (n : Number)
| Str (s : string)
| Array (elems : list value)
| Object (members : list (string * value)).

(** A request body as [Decoder.Decode] reads it: the first JSON value of
    the stream, or the error of the scanner (a syntax error, [EOF] on an
    empty body, [unexpected EOF] on a truncated one). *)
Inductive Body :=
| NoValue (msg : string)
| FirstValue (v : value).

Definition kind (v : value) : string :=
  match v with
  | Null => "null"
  | Bool _ => "bool"
  | Num _ => "number"
  | Str _ => "string"
  | Array _ => "array"
  | Object _ => "object"
  end.

(** [strconv.ParseInt(lit, 10, 64)] on a number literal. *)
Definition ParseInt (n : Number) : option Z :=
  match n with
  | Int neg n =>
      let z := int_value neg n in
      if strconv.in_int z then Some z else None
  | Float _ => None
  end.

(** [strconv.ParseFloat(lit, 64)] on a number literal; [None] is
    [ErrRange]. *)
Definition ParseFloat (n : Number) : option float64 :=
  let f := match n with
           | Int neg n =>
               let f := strconv.float_of_Z (Z.of_N n) in
               if neg then opp f else f
           | Float f => f
           end in
  if is_finite f then Some f else None.

(** The fields of [Item], by their [json:"..."] tags. *)
Inductive Field := FID | FName | FDescription | FPrice.

Definition tag (fld : Field) : string :=
  match fld with
  | FID => "id"
  | FName => "name"
  | FDescription => "description"
  | FPrice => "price"
  end.

Definition go_type (fld : Field) : string :=
  match fld with
  | FID => "int"
  | FName | FDescription => "string"
  | FPrice => "float64"
  end.

Definition to_lower (c : ascii) : ascii :=
  let n := N_of_ascii c in
  if ((65 <=? n) && (n <=? 90))%N then ascii_of_N (n + 32) else c.

(** A key folded the way [encoding/json] compares keys with tags:
    ASCII letters lose their case, and the two runes that fold to an
    ASCII letter, U+017F (long s) and U+212A (Kelvin sign), become it. *)
Fixpoint fold_name (s : string) : string :=
  match s with
  | EmptyString => EmptyString
  | String c s' =>
      match c, s' with
      | "197"%char, String "191"%char s'' => String "s" (fold_name s'')
      | "226"%char, String "132"%char (String "170"%char s'') =>
          String "k" (fold_name s'')
      | _, _ => String (to_lower c) (fold_name s')
      end
  end.

(** The field an object key selects: the exact tag, else the tag the key
    folds to. *)
Definition field_of_key (key : string) : option Field :=
  let k := fold_name key in
  if String.eqb k "id" then Some FID
  else if String.eqb k "name" then Some FName
  else if String.eqb k "description" then Some FDescription
  else if String.eqb k "price" then Some FPrice
  else None.

(** Storing one member's value into its field. [null] leaves the field
    as it is; a value of the wrong kind, or a number that does not fit,
    leaves the field and reports an [UnmarshalTypeError]. *)
Definition store (fld : Field) (v : value) (it : Item) : Item * option error :=
  match v, fld with
  | Null, _ => (it, None)
  | Num n, FID =>
      match ParseInt n with
      | Some z => (with_ID z it, None)
      | None => (it, Some (UnmarshalTypeError "number" (tag fld) (go_type fld)))
      end
  | Num n, FPrice =>
      match ParseFloat n with
      | Some f => (with_Price f it, None)
      | None => (it, Some (UnmarshalTypeError "number" (tag fld) (go_type fld)))
      end
  | Str s, FName => (with_Name s it, None)
  | Str s, FDescription => (with_Description s it, None)
  | _, _ => (it, Some (UnmarshalTypeError (kind v) (tag fld) (go_type fld)))
  end.

(** [d.saveError]: the first error is the one reported. *)
Definition saveError (saved new : option error) : option error :=
  match saved with
  | Some _ => saved
  | None => new
  end.

(** The members of an object, in order; unknown keys are skipped and a
    later member overwrites an earlier one. *)
Fixpoint object (members : list (string * value)) (it : Item)
    (saved : option error) : Item * option error :=
  match members with
  | [] => (it, saved)
  | (key, v) :: rest =>
      match field_of_key key with
      | None => object rest it saved
      | Some fld =>
          let '(it', e) := store fld v it in
          object rest it' (saveError saved e)
      end
  end.

(** [Unmarshal] of a JSON value into an [Item]. *)
Definition unmarshal (v : value) (it : Item) : Item * option error :=
  match v with
  | Null => (it, None)
  | Object members => object members it None
  | _ => (it, Some (UnmarshalTypeError (kind v) "" "main.Item"))
  end.

(** [json.NewDecoder(r.Body).Decode(&item)]: the item after the call and
    the error returned. *)
Definition Decode (b : Body) (it : Item) : Item * option error :=
  match b with
  | NoValue msg => (it, Some (SyntaxError msg))
  | FirstValue v => unmarshal v it
  end.

(** [Marshal] of a [float64]: NaN and the infinities are unsupported
    values. *)
Definition marshal_float (f : float64) : option value :=
  if is_finite f then Some (Num (Float f)) else None.

(** [Marshal] of an [Item]: the fields in declaration order under their
    tags. *)
Definition marshal_Item (it : Item) : option value :=
  match marshal_float (Price it) with
  | Some p =>
      Some (Object [("id", Num (int_lit (ID it)));
                    ("name", Str (Name it));
                    ("description", Str (Description it));
                    ("price", p)])
  | None => None
  end.

Fixpoint marshal_list (l : list Item) : option (list value) :=
  match l with
  | [] => Some []
  | it :: rest =>
      match marshal_Item it, marshal_list rest with
      | Some v, Some vs => Some (v :: vs)
      | _, _ => None
      end
  end.

(** [Marshal] of a [[]Item]: a nil slice is [null], any other slice an
    array. *)
Definition marshal_Items (s : slice Item) : option value :=
  match s with
  | nil_slice => Some Null
  | slice_of l =>
      match marshal_list l with
      | Some vs => Some (Array vs)
      | None => None
      end
  end.

End json.

(** ** Package net/http: the response writer *)

Module http.

Definition StatusOK : Z := 200.
Definition StatusNoContent : Z := 204.
Definition StatusNotModified : Z := 304.
Definition StatusBadRequest : Z := 400.
Definition StatusNotFound : Z := 404.
Definition StatusInternalServerError : Z := 500.

(** What a handler writes to the body: [JSONLine v] is the text of [v]
    and a newline, as [Encoder.Encode] writes it; [TextLine s] is [s] and
    a newline, as [fmt.Fprintln] writes it. *)
Inductive Chunk :=
| JSONLine (v : json.value)
| TextLine (s : string).

(** The state of an [http.ResponseWriter]: the header map the handler
    edits, the status line and headers once sent, the body so far. *)
Record ResponseWriter := mkWriter {
  header : gmap string string;
  wroteHeader : option (Z * gmap string string);
  written : list Chunk
}.

Definition newWriter : ResponseWriter := mkWriter ∅ None [].

(** [w.Header().Set(key, v)]. *)
Definition Header_Set (key v : string) (w : ResponseWriter) : ResponseWriter :=
  mkWriter (<[key := v]> (header w)) (wroteHeader w) (written w).

(** [w.Header().Del(key)]. *)
Definition Header_Del (key : string) (w : ResponseWriter) : ResponseWriter :=
  mkWriter (delete key (header w)) (wroteHeader w) (written w).

(** [w.WriteHeader(code)]: the first call sends the status with the
    headers set so far; a later call is ignored. *)
Definition WriteHeader (code : Z) (w : ResponseWriter) : ResponseWriter :=
  match wroteHeader w with
  | Some _ => w
  | None => mkWriter (header w) (Some (code, header w)) (written w)
  end.

Definition bodyAllowedForStatus (code : Z) : bool :=
  negb (((100 <=? code) && (code <=? 199))
        || (code =? StatusNoContent) || (code =? StatusNotModified)).

(** [w.Write(data)]: sends status 200 first if none was sent; a status
    without body drops the data. *)
Definition Write (data : Chunk) (w : ResponseWriter) : ResponseWriter :=
  let w1 := WriteHeader StatusOK w in
  match wroteHeader w1 with
  | Some (code, _) =>
      if bodyAllowedForStatus code
      then mkWriter (header w1) (wroteHeader w1) (written w1 ++ [data])
      else w1
  | None => w1
  end.

(** [http.Error(w, msg, code)]. *)
Definition Error (msg : string) (code : Z) (w : ResponseWriter) : ResponseWriter :=
  let w := Header_Del "Content-Length" w in
  let w := Header_Set "Content-Type" "text/plain; charset=utf-8" w in
  let w := Header_Set "X-Content-Type-Options" "nosniff" w in
  let w := WriteHeader code w in
  Write (TextLine msg) w.

(** [json.NewEncoder(w).Encode(v)]: nothing is written when [v] has no
    encoding; the handlers drop the error. *)
Definition Encode (v : option json.value) (w : ResponseWriter) : ResponseWriter :=
  match v with
  | Some j => Write (JSONLine j) w
  | None => w
  end.

(** The response the client gets. *)
Record Response := mkResponse {
  StatusCode : Z;
  Header : gmap string string;
  Body : list Chunk
}.

(** When the handler returns: status 200 is sent if the handler sent
    none. *)
Definition finish (w : ResponseWriter) : Response :=
  match wroteHeader (WriteHeader StatusOK w) with
  | Some (code, h) => mkResponse code h (written w)
  | None => mkResponse StatusOK (header w) (written w)
  end.

(** A request, as far as the handlers read it: the route variables of
    [mux.Vars(r)] and the body. *)
Record Request := mkRequest {
  Vars : gmap string string;
  ReqBody : json.Body
}.

End http.

(** ** Package database/sql and the items table *)

Module sql.

(** The five statements of [main.go], with their arguments. *)
Inductive Statement :=
| INSERT (name description : string) (price : float64)
    (* INSERT INTO items (name, description, price) VALUES ($1, $2, $3) RETURNING id *)
| SELECT_all
    (* SELECT id, name, description, price FROM items *)
| SELECT_by_id (id : Z)
    (* SELECT id, name, description, price FROM items WHERE id = $1 *)
| UPDATE (name description : string) (price : float64) (id : Z)
    (* UPDATE items SET name = $1, description = $2, price = $3 WHERE id = $4 *)
| DELETE (id : Z).
    (* DELETE FROM items WHERE id = $1 *)

(** A result row: one column ([RETURNING id]) or the four columns of an
    item. *)
Inductive Row :=
| Row1 (id : Z)
| Row4 (id : Z) (name description : string) (price : float64).

(** Modelled from the spec: the items table, whose schema is not in
    [main.go]. The persisted state is one table with the columns id
    (auto-incrementing primary key), name (text), description (text) and
    price (numeric). The rows are kept in insertion order and the sequence
    behind the id column holds the next id it hands out. *)
Record Store := mkStore {
  rows : list Item;
  next_id : Z
}.

(** Modelled from the spec: the initial state of the items table, which
    [main.go] does not create. A new table is empty and its sequence starts
    at 1. *)
Definition empty : Store := mkStore [] 1.

Definition ids (st : Store) : list Z := ID <$> rows st.

Definition row_of (it : Item) : Row :=
  Row4 (ID it) (Name it) (Description it) (Price it).

Definition set_columns (name description : string) (price : float64)
    (id : Z) (it : Item) : Item :=
  if decide (ID it = id) then mkItem (ID it) name description price else it.

(** Modelled from the spec: what the database does with each statement of
    [main.go] on the items table.
    - INSERT takes the next value of the sequence as id (the sequence
      moves on even when the statement then fails, and ends at the
      largest value of Go's [int]), refuses an id that is already a key,
      and returns the id.
    - SELECT returns the rows, all of them or those with the id.
    - UPDATE replaces name, description and price of the rows with the
      id, and DELETE removes them; both succeed when no row has it. *)
Definition exec (q : Statement) (st : Store) : Store * result (list Row) :=
  match q with
  | INSERT name description price =>
      let id := next_id st in
      if decide (strconv.maxInt < id)
      then (st, Err (DriverError "pq: nextval: reached maximum value of sequence"))
      else if decide (id ∈ ids st)
      then (mkStore (rows st) (id + 1),
            Err (DriverError "pq: duplicate key value violates unique constraint"))
      else (mkStore (rows st ++ [mkItem id name description price]) (id + 1),
            Ok [Row1 id])
  | SELECT_all => (st, Ok (row_of <$> rows st))
  | SELECT_by_id id =>
      (st, Ok (row_of <$> filter (λ it, ID it = id) (rows st)))
  | UPDATE name description price id =>
      (mkStore (set_columns name description price id <$> rows st) (next_id st),
       Ok [])
  | DELETE id =>
      (mkStore (filter (λ it, ID it ≠ id) (rows st)) (next_id st), Ok [])
  end.

(** The handle [db]: the store behind it and the statements sent
    through it, oldest first. *)
Record DB := mkDB {
  store : Store;
  sent : list Statement
}.

(** What the connection does to one request's statement: [None] lets it
    run, [Some msg] makes the driver report [msg] instead of running
    it. *)
Definition Fault := option string.

Definition send (fault : Fault) (q : Statement) (db : DB) : DB * result (list Row) :=
  match fault with
  | Some msg => (mkDB (store db) (sent db ++ [q]), Err (DriverError msg))
  | None =>
      let '(st, r) := exec q (store db) in
      (mkDB st (sent db ++ [q]), r)
  end.

(** [db.QueryRowContext(ctx, q, args...)]: the first row, [ErrNoRows]
    when there is none; the error waits in the row until [Scan]. *)
Definition QueryRowContext (fault : Fault) (q : Statement) (db : DB)
    : DB * result Row :=
  let '(db', r) := send fault q db in
  (db', match r with
        | Err e => Err e
        | Ok [] => Err ErrNoRows
        | Ok (row :: _) => Ok row
        end).

(** [db.QueryContext(ctx, q)]. *)
Definition QueryContext (fault : Fault) (q : Statement) (db : DB)
    : DB * result (list Row) :=
  send fault q db.

(** [db.ExecContext(ctx, q, args...)], the [sql.Result] dropped. *)
Definition ExecContext (fault : Fault) (q : Statement) (db : DB)
    : DB * option error :=
  let '(db', r) := send fault q db in
  (db', match r with
        | Err e => Some e
        | Ok _ => None
        end).

(** [rows.Scan(&item.ID, &item.Name, &item.Description, &item.Price)] on
    the current row. *)
Definition Scan4 (row : Row) (it : Item) : Item * option error :=
  match row with
  | Row4 id name description price => (mkItem id name description price, None)
  | Row1 _ =>
      (it, Some (ScanError "sql: expected 1 destination arguments in Scan, not 4"))
  end.

(** [rows.Scan(&item.ID)] on the current row. *)
Definition Scan1 (row : Row) (it : Item) : Item * option error :=
  match row with
  | Row1 id => (with_ID id it, None)
  | Row4 _ _ _ _ =>
      (it, Some (ScanError "sql: expected 4 destination arguments in Scan, not 1"))
  end.

(** [Scan] on a [*sql.Row]: the error of the query if there was one, else the
    scan of the row. *)
Definition Row_Scan (scan : Row -> Item -> Item * option error)
    (row : result Row) (it : Item) : Item * option error :=
  match row with
  | Err e => (it, Some e)
  | Ok r => scan r it
  end.

End sql.

(** ** Package main: the handlers *)

(** [createItem] (main.go, lines 99-120). *)
Definition createItem (fault : sql.Fault) (w : http.ResponseWriter)
    (r : http.Request) (db : sql.DB) : sql.DB * http.ResponseWriter :=
  let '(item, err) := json.Decode (http.ReqBody r) zeroItem in
  match err with
  | Some e => (db, http.Error (ErrorText e) http.StatusBadRequest w)
  | None =>
      let sqlStatement := sql.INSERT (Name item) (Description item) (Price item) in
      let '(db, row) := sql.QueryRowContext fault sqlStatement db in
      let '(item, err) := sql.Row_Scan sql.Scan1 row item in
      match err with
      | Some e => (db, http.Error (ErrorText e) http.StatusInternalServerError w)
      | None =>
          let w := http.Header_Set "Content-Type" "application/json" w in
          (db, http.Encode (json.marshal_Item item) w)
      end
  end.

(** The loop [for rows.Next() { ... items = append(items, item) }] of
    [getItems], which stops at the first row that does not scan. *)
Fixpoint scan_rows (rows : list sql.Row) (items : slice Item)
    : slice Item * option error :=
  match rows with
  | [] => (items, None)
  | row :: rest =>
      let '(item, err) := sql.Scan4 row zeroItem in
      match err with
      | Some e => (items, Some e)
      | None => scan_rows rest (append items item)
      end
  end.

(** [getItems] (main.go, lines 122-147). *)
Definition getItems (fault : sql.Fault) (w : http.ResponseWriter)
    (r : http.Request) (db : sql.DB) : sql.DB * http.ResponseWriter :=
  let '(db, res) := sql.QueryContext fault sql.SELECT_all db in
  match res with
  | Err e => (db, http.Error (ErrorText e) http.StatusInternalServerError w)
  | Ok rows =>
      let '(items, err) := scan_rows rows (slice_of []) in
      match err with
      | Some e => (db, http.Error (ErrorText e) http.StatusInternalServerError w)
      | None =>
          let w := http.Header_Set "Content-Type" "application/json" w in
          (db, http.Encode (json.marshal_Items items) w)
      end
  end.

(** [params["id"]]: the empty string when the map has no such key. *)
Definition param (r : http.Request) (key : string) : string :=
  default "" (http.Vars r !! key).

(** [getItem] (main.go, lines 149-175). *)
Definition getItem (fault : sql.Fault) (w : http.ResponseWriter)
    (r : http.Request) (db : sql.DB) : sql.DB * http.ResponseWriter :=
  match strconv.Atoi (param r "id") with
  | inl _ => (db, http.Error "Invalid item ID" http.StatusBadRequest w)
  | inr id =>
      let sqlStatement := sql.SELECT_by_id id in
      let '(db, row) := sql.QueryRowContext fault sqlStatement db in
      let '(item, err) := sql.Row_Scan sql.Scan4 row zeroItem in
      match err with
      | Some ErrNoRows => (db, http.Error "Item not found" http.StatusNotFound w)
      | Some e => (db, http.Error (ErrorText e) http.StatusInternalServerError w)
      | None =>
          let w := http.Header_Set "Content-Type" "application/json" w in
          (db, http.Encode (json.marshal_Item item) w)
      end
  end.

(** [updateItem] (main.go, lines 177-205). *)
Definition updateItem (fault : sql.Fault) (w : http.ResponseWriter)
    (r : http.Request) (db : sql.DB) : sql.DB * http.ResponseWriter :=
  match strconv.Atoi (param r "id") with
  | inl _ => (db, http.Error "Invalid item ID" http.StatusBadRequest w)
  | inr id =>
      let '(item, err) := json.Decode (http.ReqBody r) zeroItem in
      match err with
      | Some e => (db, http.Error (ErrorText e) http.StatusBadRequest w)
      | None =>
          let sqlStatement :=
            sql.UPDATE (Name item) (Description item) (Price item) id in
          let '(db, err) := sql.ExecContext fault sqlStatement db in
          match err with
          | Some e => (db, http.Error (ErrorText e) http.StatusInternalServerError w)
          | None =>
              let w := http.Header_Set "Content-Type" "application/json" w in
              (db, http.WriteHeader http.StatusNoContent w)
          end
      end
  end.

(** [deleteItem] (main.go, lines 207-227). *)
Definition deleteItem (fault : sql.Fault) (w : http.ResponseWriter)
    (r : http.Request) (db : sql.DB) : sql.DB * http.ResponseWriter :=
  match strconv.Atoi (param r "id") with
  | inl _ => (db, http.Error "Invalid item ID" http.StatusBadRequest w)
  | inr id =>
      let sqlStatement := sql.DELETE id in
      let '(db, err) := sql.ExecContext fault sqlStatement db in
      match err with
      | Some e => (db, http.Error (ErrorText e) http.StatusInternalServerError w)
      | None => (db, http.WriteHeader http.StatusNoContent w)
      end
  end.

(** The routes of [main] (main.go, lines 69-73). *)
Inductive Route :=
| POST_items
| GET_items
| GET_item
| PUT_item
| DELETE_item.

Definition handler (rt : Route)
    : sql.Fault -> http.ResponseWriter -> http.Request -> sql.DB
      -> sql.DB * http.ResponseWriter :=
  match rt with
  | POST_items => createItem
  | GET_items => getItems
  | GET_item => getItem
  | PUT_item => updateItem
  | DELETE_item => deleteItem
  end.

(** One request served: the handler runs on a fresh response writer and
    the server completes the response when it returns. *)
Definition serve (rt : Route) (fault : sql.Fault) (r : http.Request)
    (db : sql.DB) : sql.DB * http.Response :=
  let '(db', w) := handler rt fault http.newWriter r db in
  (db', http.finish w).

(** A call as the server sees it: the route, what the connection does to
    its statement, and the request. *)
Definition Call : Type := Route * sql.Fault * http.Request.

(** The calls served one after the other; the responses, oldest first. *)
Fixpoint serve_all (calls : list Call) (db : sql.DB)
    : sql.DB * list (Call * http.Response) :=
  match calls with
  | [] => (db, [])
  | (rt, fault, r) :: rest =>
      let '(db1, resp) := serve rt fault r db in
      let '(db2, resps) := serve_all rest db1 in
      (db2, ((rt, fault, r), resp) :: resps)
  end.

(** ** Requests and responses used in the statements *)

(** A request to [/items]. *)
Definition items_request (b : json.Body) : http.Request :=
  http.mkRequest ∅ b.

(** A request to [/items/{id}] with the path segment [seg]. *)
Definition item_request (seg : string) (b : json.Body) : http.Request :=
  http.mkRequest {[ "id" := seg ]} b.

(** The body [{"name": ..., "description": ..., "price": ...}]. *)
Definition item_body (name description : string) (price : json.Number) : json.Body :=
  json.FirstValue
    (json.Object [("name", json.Str name);
                  ("description", json.Str description);
                  ("price", json.Num price)]).

(** A body of a request that carries none. *)
Definition no_body : json.Body := json.NoValue "EOF".

Definition json_headers : gmap string string :=
  {[ "Content-Type" := "application/json" ]}.

Definition text_headers : gmap string string :=
  <["X-Content-Type-Options" := "nosniff"]>
    {[ "Content-Type" := "text/plain; charset=utf-8" ]}.

(** The response of [http.Error(w, msg, code)] on a fresh writer. *)
Definition error_response (code : Z) (msg : string) : http.Response :=
  http.mkResponse code text_headers [http.TextLine msg].

(** A 200 response with a JSON body. *)
Definition json_response (v : json.value) : http.Response :=
  http.mkResponse http.StatusOK json_headers [http.JSONLine v].

(** The JSON of an item with finite price. *)
Definition item_json (it : Item) : json.value :=
  json.Object [("id", json.Num (json.int_lit (ID it)));
               ("name", json.Str (Name it));
               ("description", json.Str (Description it));
               ("price", json.Num (json.Float (Price it)))].

(** ** The vocabulary of the spec *)

(** An integer string: an optional sign and one or more decimal digits. *)
Definition is_digit (c : ascii) : bool :=
  let n := Z.of_N (N_of_ascii c) in (48 <=? n) && (n <=? 57).

Fixpoint all_digits (s : string) : bool :=
  match s with
  | EmptyString => true
  | String c s' => is_digit c && all_digits s'
  end.

Definition unsigned_part (s : string) : string :=
  match s with
  | String "-" r => r
  | String "+" r => r
  | _ => s
  end.

Definition is_negative (s : string) : bool :=
  match s with
  | String "-" _ => true
  | _ => false
  end.

Definition integer_string (s : string) : bool :=
  match unsigned_part s with
  | EmptyString => false
  | u => all_digits u
  end.

(** The number a string of digits denotes, continuing from [acc]. *)
Fixpoint decimal_value (s : string) (acc : Z) : Z :=
  match s with
  | EmptyString => acc
  | String c s' => decimal_value s' (acc * 10 + (Z.of_N (N_of_ascii c) - 48))
  end.

(** The integer an integer string denotes. *)
Definition integer_value (s : string) : Z :=
  let v := decimal_value (unsigned_part s) 0 in
  if is_negative s then - v else v.

(** A JSON object has a member under the key [key]. *)
Definition has_member (key : string) (v : json.value) : bool :=
  match v with
  | json.Object members => existsb (fun m => String.eqb (fst m) key) members
  | _ => false
  end.

(** A JSON object that misses one of the fields name, description,
    price. *)
Definition missing_required_field (b : json.Body) : bool :=
  match b with
  | json.FirstValue (json.Object members) =>
      let v := json.Object members in
      negb (has_member "name" v && has_member "description" v
            && has_member "price" v)
  | _ => false
  end.

(** A member that [Decode] takes without error: its key selects no field,
    or its value is [null] or fits the field. *)
Definition fits (m : string * json.value) : bool :=
  match json.field_of_key (fst m) with
  | None => true
  | Some fld =>
      match snd (json.store fld (snd m) zeroItem) with
      | None => true
      | Some _ => false
      end
  end.

(** The response carries [Content-Type: application/json]. *)
Definition json_content_type (resp : http.Response) : Prop :=
  http.Header resp !! "Content-Type" = Some "application/json".

(** The response is a success. *)
Definition success (resp : http.Response) : Prop :=
  200 <= http.StatusCode resp < 300.

(** The id a 200 response of create carries. *)
Definition returned_id (resp : http.Response) : option Z :=
  if http.StatusCode resp =? http.StatusOK then
    match http.Body resp with
    | [http.JSONLine (json.Object ((key, json.Num (json.Int neg n)) :: _))] =>
        if String.eqb key "id" then Some (json.int_value neg n) else None
    | _ => None
    end
  else None.

(** The ids returned by the creates among the calls served. *)
Fixpoint created_ids (served : list (Call * http.Response)) : list Z :=
  match served with
  | [] => []
  | ((POST_items, _, _), resp) :: rest =>
      match returned_id resp with
      | Some id => id :: created_ids rest
      | None => created_ids rest
      end
  | _ :: rest => created_ids rest
  end.

(** ** Invariants of the store *)

Definition finite_prices (st : sql.Store) : Prop :=
  Forall (fun it => is_finite (Price it) = true) (sql.rows st).

(** The ids are distinct, positive and below the sequence, and the prices
    are numbers. *)
Record wf (st : sql.Store) : Prop := mk_wf {
  wf_unique : NoDup (sql.ids st);
  wf_seq : 1 <= sql.next_id st;
  wf_below : Forall (fun it => 1 <= ID it < sql.next_id st) (sql.rows st);
  wf_finite : finite_prices st
}.

(** The prices a statement carries are numbers. *)
Definition finite_args (q : sql.Statement) : Prop :=
  match q with
  | sql.INSERT _ _ price | sql.UPDATE _ _ price _ => is_finite price = true
  | _ => True
  end.

(** ** Which statement a request sends, which response it gets *)

(** The statement a request sends once its input is accepted. *)
Definition statement_of (rt : Route) (r : http.Request) : option sql.Statement :=
  match rt with
  | POST_items =>
      match json.Decode (http.ReqBody r) zeroItem with
      | (item, None) =>
          Some (sql.INSERT (Name item) (Description item) (Price item))
      | (_, Some _) => None
      end
  | GET_items => Some sql.SELECT_all
  | GET_item =>
      match strconv.Atoi (param r "id") with
      | inr id => Some (sql.SELECT_by_id id)
      | inl _ => None
      end
  | PUT_item =>
      match strconv.Atoi (param r "id"), json.Decode (http.ReqBody r) zeroItem with
      | inr id, (item, None) =>
          Some (sql.UPDATE (Name item) (Description item) (Price item) id)
      | _, _ => None
      end
  | DELETE_item =>
      match strconv.Atoi (param r "id") with
      | inr id => Some (sql.DELETE id)
      | inl _ => None
      end
  end.

(** The responses a route can give. *)
Inductive shape : Route -> http.Response -> Prop :=
| shape_error rt code msg :
    400 <= code -> shape rt (error_response code msg)
| shape_json rt v :
    rt <> PUT_item -> rt <> DELETE_item -> shape rt (json_response v)
| shape_no_encoding rt :
    rt <> PUT_item -> rt <> DELETE_item ->
    shape rt (http.mkResponse http.StatusOK json_headers [])
| shape_updated :
    shape PUT_item (http.mkResponse http.StatusNoContent json_headers [])
| shape_deleted :
    shape DELETE_item (http.mkResponse http.StatusNoContent ∅ []).

(** What [Decode] refuses: a body without JSON value, a value that is
    neither an object nor [null], an object with a member that does not
    fit. *)
Definition refused (b : json.Body) : bool :=
  match b with
  | json.NoValue _ => true
  | json.FirstValue json.Null => false
  | json.FirstValue (json.Object members) => negb (forallb fits members)
  | json.FirstValue _ => true
  end.

(** ** Sample data: the scenario of the spec *)

(** The binary64 values nearest to 9.99 and to 19.99. *)
Definition price_9_99 : float64 := 0x1.3fae147ae147bp+3%float.
Definition price_19_99 : float64 := 0x1.3fd70a3d70a3dp+4%float.

Definition widget : json.Body :=
  item_body "Widget" "A widget" (json.Float price_9_99).
Definition widget2 : json.Body :=
  item_body "Widget2" "A widget" (json.Float price_19_99).

(** A handle on a new table, and the handle after one create. *)
Definition new_db : sql.DB := sql.mkDB sql.empty [].
Definition widget_db : sql.DB :=
  (serve POST_items None (items_request widget) new_db).1.

(** ** More vocabulary: statements and statuses by route *)

(** The route whose handler sends a statement of this kind. *)
Definition route_of (q : sql.Statement) : Route :=
  match q with
  | sql.INSERT _ _ _ => POST_items
  | sql.SELECT_all => GET_items
  | sql.SELECT_by_id _ => GET_item
  | sql.UPDATE _ _ _ _ => PUT_item
  | sql.DELETE _ => DELETE_item
  end.

(** The status codes a handler writes: the implicit 200 of a body, the 204
    of [WriteHeader], and the codes of its [http.Error] calls. *)
Definition statuses (rt : Route) : list Z :=
  match rt with
  | POST_items => [200; 400; 500]
  | GET_items => [200; 500]
  | GET_item => [200; 400; 404; 500]
  | PUT_item | DELETE_item => [204; 400; 500]
  end.

(** The item a body decodes to, under the id [id]. *)
Definition stored (id : Z) (item : Item) : Item :=
  mkItem id (Name item) (Description item) (Price item).

(** A handle on a table with two rows. *)
Definition two_db : sql.DB :=
  (serve POST_items None (items_request widget2) widget_db).1.

(** ** Package gorilla/mux: the route table of [main] *)

Module mux.

(** The two path templates [main] registers. *)
Inductive Template :=
| Items      (* "/items" *)
| Item_id.   (* "/items/{id}" *)

Fixpoint no_slash (s : string) : bool :=
  match s with
  | EmptyString => true
  | String c s' => negb (Ascii.eqb c "/") && no_slash s'
  end.

(** [strings.CutPrefix(s, prefix)]. *)
Fixpoint strip_prefix (prefix s : string) : option string :=
  match prefix, s with
  | EmptyString, _ => Some s
  | String a prefix', String b s' =>
      if Ascii.eqb a b then strip_prefix prefix' s' else None
  | String _ _, EmptyString => None
  end.

(** The path matcher of a route: the regular expression the router
    compiles the template to, [^/items$] and [^/items/(?P<v0>[^/]+)$], on
    [req.URL.Path]; on a match, the route variables. *)
Definition match_path (t : Template) (path : string)
    : option (gmap string string) :=
  match t with
  | Items => if String.eqb path "/items" then Some ∅ else None
  | Item_id =>
      match strip_prefix "/items/" path with
      | Some seg =>
          if negb (String.eqb seg "") && no_slash seg
          then Some {[ "id" := seg ]}
          else None
      | None => None
      end
  end.

(** [muxRouter.HandleFunc(template, target).Methods(method)]. *)
Record Registration := mkRegistration {
  template : Template;
  method : string;
  target : Route
}.

(** The routes in the order [main] registers them (main.go, lines
    69-73). *)
Definition routes : list Registration :=
  [ mkRegistration Items "POST" POST_items;
    mkRegistration Items "GET" GET_items;
    mkRegistration Item_id "GET" GET_item;
    mkRegistration Item_id "PUT" PUT_item;
    mkRegistration Item_id "DELETE" DELETE_item ].

(** A route matches a request when its path matcher and its method
    matcher do. *)
Definition matches (reg : Registration) (meth path : string)
    : option (Route * gmap string string) :=
  match match_path (template reg) path with
  | Some vars =>
      if String.eqb (method reg) meth then Some (target reg, vars) else None
  | None => None
  end.

(** [Router.Match], as far as it finds a handler of [main]: the first
    route that matches, with its variables. *)
Fixpoint Match (regs : list Registration) (meth path : string)
    : option (Route * gmap string string) :=
  match regs with
  | [] => None
  | reg :: rest =>
      match matches reg meth path with
      | Some found => Some found
      | None => Match rest meth path
      end
  end.

End mux.

(** The method a route is registered under. *)
Definition method_of (rt : Route) : string :=
  match rt with
  | POST_items => "POST"
  | GET_items | GET_item => "GET"
  | PUT_item => "PUT"
  | DELETE_item => "DELETE"
  end.

(** ** Proof steps shared by the handler lemmas *)

Ltac open_handler :=
  unfold serve, handler, createItem, getItems, getItem, updateItem, deleteItem,
    statement_of, sql.QueryRowContext, sql.QueryContext, sql.ExecContext,
    sql.Row_Scan.

Ltac split_cases := repeat case_match; simplify_eq; try reflexivity.

(** ** strconv: [Atoi] against the integer strings *)

Section Atoi.

Import strconv.

Lemma digit_spec (ch : ascii) (d : Z) :
  digit ch = Some d <-> is_digit ch = true /\ d = Z.of_N (N_of_ascii ch) - 48.
Proof.
  unfold digit, is_digit.
  pose proof (N_ascii_bounded ch) as Hb.
  set (n := Z.of_N (N_of_ascii ch)).
  assert (0 <= n < 256) as Hn by (subst n; lia).
  clearbody n. clear Hb.
  destruct (Z_lt_le_dec n 48) as [Hlo | Hlo].
  - replace ((n - 48) mod 256) with (n + 208)
      by (apply (Z.mod_unique_pos _ _ (-1)); lia).
    assert ((9 <? n + 208) = true) as -> by lia.
    assert ((48 <=? n) = false) as -> by lia.
    simpl. split; [discriminate | intros [? _]; discriminate].
  - rewrite (Z.mod_small (n - 48) 256) by lia.
    assert ((48 <=? n) = true) as -> by lia. simpl.
    destruct (Z_le_gt_dec n 57) as [Hhi | Hhi].
    + assert ((9 <? n - 48) = false) as -> by lia.
      assert ((n <=? 57) = true) as -> by lia.
      split; [intros [= <-]; auto | intros [_ ->]; reflexivity].
    + assert ((9 <? n - 48) = true) as -> by lia.
      assert ((n <=? 57) = false) as -> by lia.
      split; [discriminate | intros [? _]; discriminate].
Qed.

Lemma digits_spec (s : string) (n v : Z) :
  digits s n = Some v <-> all_digits s = true /\ v = decimal_value s n.
Proof.
  revert n. induction s as [| ch s IH]; intros n; simpl.
  - split; [intros [= <-]; auto | intros [_ ->]; reflexivity].
  - destruct (digit ch) as [d |] eqn:Hd.
    + apply digit_spec in Hd as [Hdig ->]. rewrite Hdig. simpl. apply IH.
    + destruct (is_digit ch) eqn:Hdig.
      * assert (digit ch = Some (Z.of_N (N_of_ascii ch) - 48)) as Hd'
          by (apply digit_spec; auto).
        congruence.
      * simpl. split; [easy | intros []; easy].
Qed.

(** [Atoi] accepts exactly the integer strings whose value fits [int],
    and returns that value. *)
Lemma Atoi_spec (s : string) (z : Z) :
  Atoi s = inr z <->
  integer_string s = true /\ integer_value s = z /\ in_int z = true.
Proof.
  unfold Atoi, integer_string, integer_value.
  replace (match s with
           | String "-" r => (true, r)
           | String "+" r => (false, r)
           | _ => (false, s)
           end) with (is_negative s, unsigned_part s)
    by (destruct s as [| [[] [] [] [] [] [] [] []] r]; reflexivity).
  destruct (unsigned_part s) as [| ch u] eqn:Hu.
  - split; [easy | intros []; easy].
  - destruct (digits (String ch u) 0) as [n |] eqn:Hn.
    + apply digits_spec in Hn as [Hall ->]. rewrite Hall.
      destruct (in_int _) eqn:Hin.
      * split; [intros [= <-]; auto | intros (_ & <- & _); reflexivity].
      * split; [easy | intros (_ & <- & ?); congruence].
    + destruct (all_digits (String ch u)) eqn:Hall.
      * assert (digits (String ch u) 0 = Some (decimal_value (String ch u) 0))
          by (apply digits_spec; auto).
        congruence.
      * split; [easy | intros []; easy].
Qed.

Lemma Atoi_integer_string (s : string) :
  integer_string s = true -> in_int (integer_value s) = true ->
  Atoi s = inr (integer_value s).
Proof. intros. apply Atoi_spec. auto. Qed.

Lemma Atoi_in_int (s : string) (z : Z) : Atoi s = inr z -> in_int z = true.
Proof. intros H. apply Atoi_spec in H. tauto. Qed.

Lemma in_int_spec (z : Z) : in_int z = true <-> minInt <= z <= maxInt.
Proof. unfold in_int. lia. Qed.

(** The character [utoa] writes for a digit is that digit. *)
Lemma digit_char (d : Z) :
  0 <= d <= 9 -> digit (ascii_of_N (Z.to_N (48 + d))) = Some d.
Proof.
  intros Hd.
  assert (d = 0 \/ d = 1 \/ d = 2 \/ d = 3 \/ d = 4 \/ d = 5 \/ d = 6
          \/ d = 7 \/ d = 8 \/ d = 9) as Hcases by lia.
  repeat (destruct Hcases as [-> | Hcases]; [reflexivity |]).
  subst d. reflexivity.
Qed.

Lemma digits_utoa (fuel : nat) : forall (n : Z) (acc : string),
  0 <= n < 10 ^ Z.of_nat fuel ->
  digits (utoa fuel n acc) 0 = digits acc n.
Proof.
  induction fuel as [| k IH]; intros n acc Hn.
  - simpl in *. replace n with 0 by lia. reflexivity.
  - cbn [utoa].
    assert (0 <= n mod 10 < 10) as Hm by (apply Z.mod_pos_bound; lia).
    destruct (Z.ltb_spec n 10) as [Hlt | Hge].
    + cbn [digits]. rewrite digit_char by lia.
      rewrite Z.mod_small by lia. reflexivity.
    + rewrite IH.
      * cbn [digits]. rewrite digit_char by lia.
        f_equal. pose proof (Z.div_mod n 10). lia.
      * rewrite Nat2Z.inj_succ, Z.pow_succ_r in Hn by lia.
        split; [apply Z.div_pos; lia | apply Z.div_lt_upper_bound; lia].
Qed.

(** [utoa] with fuel writes at least one digit, so neither a sign nor
    the empty string. *)
Lemma utoa_unsigned (fuel : nat) : forall (n : Z) (acc : string),
  0 <= n ->
  exists ch r, utoa (S fuel) n acc = String ch r
               /\ unsigned_part (String ch r) = String ch r
               /\ is_negative (String ch r) = false.
Proof.
  assert (forall d r, 0 <= d <= 9 ->
            let s := String (ascii_of_N (Z.to_N (48 + d))) r in
            unsigned_part s = s /\ is_negative s = false) as Hhead.
  { intros d r Hd.
    assert (d = 0 \/ d = 1 \/ d = 2 \/ d = 3 \/ d = 4 \/ d = 5 \/ d = 6
            \/ d = 7 \/ d = 8 \/ d = 9) as Hcases by lia.
    repeat (destruct Hcases as [-> | Hcases]; [split; reflexivity |]).
    subst d. split; reflexivity. }
  induction fuel as [| k IH]; intros n acc Hn; cbn [utoa].
  - assert (0 <= n mod 10 < 10) as Hm by (apply Z.mod_pos_bound; lia).
    destruct (n <? 10); eexists _, _; (split; [reflexivity | apply Hhead; lia]).
  - assert (0 <= n mod 10 < 10) as Hm by (apply Z.mod_pos_bound; lia).
    destruct (Z.ltb_spec n 10) as [Hlt | Hge].
    + eexists _, _. split; [reflexivity | apply Hhead; lia].
    + apply IH. apply Z.div_pos; lia.
Qed.

(** Reading back what [Itoa] writes. *)
Lemma Atoi_Itoa (z : Z) : in_int z = true -> Atoi (Itoa z) = inr z.
Proof.
  intros Hin. pose proof Hin as Hr. apply in_int_spec in Hr.
  unfold minInt, maxInt, intSize in Hr. simpl in Hr.
  apply Atoi_spec. unfold Itoa, integer_string, integer_value.
  destruct (Z.ltb_spec z 0) as [Hneg | Hpos].
  - destruct (utoa_unsigned 19 (- z) "") as (ch & r & Hu & _ & _); [lia |].
    cbn [unsigned_part is_negative].
    assert (digits (utoa 20 (- z) "") 0 = Some (- z)) as Hd.
    { rewrite digits_utoa; [reflexivity |]. simpl. lia. }
    apply digits_spec in Hd as [Hall Hv].
    rewrite Hu in *. rewrite Hall, <- Hv. repeat split; [lia | assumption].
  - destruct (utoa_unsigned 19 z "") as (ch & r & Hu & Hup & Hng); [lia |].
    assert (digits (utoa 20 z "") 0 = Some z) as Hd.
    { rewrite digits_utoa; [reflexivity |]. simpl. lia. }
    apply digits_spec in Hd as [Hall Hv].
    rewrite Hu in *. rewrite Hup, Hng, Hall, <- Hv. auto.
Qed.

End Atoi.

(** ** The table: what the statements do to the rows *)

Section Table.

Import sql.

Implicit Types (l : list Item) (it : Item) (id : Z) (st : Store).

Lemma filter_absent l id :
  id ∉ ID <$> l -> filter (λ it, ID it = id) l = [].
Proof.
  induction l as [| a l IH]; intros Hnot; [reflexivity |].
  rewrite fmap_cons, not_elem_of_cons in Hnot. destruct Hnot as [Hne Hnot].
  rewrite filter_cons_False by congruence. auto.
Qed.

Lemma filter_present l it :
  NoDup (ID <$> l) -> it ∈ l -> filter (λ x, ID x = ID it) l = [it].
Proof.
  induction l as [| a l IH]; intros Hnd Hin; [inversion Hin |].
  rewrite fmap_cons, NoDup_cons in Hnd. destruct Hnd as [Ha Hnd].
  apply elem_of_cons in Hin as [-> | Hin].
  - rewrite filter_cons_True by reflexivity.
    rewrite filter_absent by assumption. reflexivity.
  - rewrite filter_cons_False; [auto |].
    intros Heq. apply Ha. rewrite Heq. apply list_elem_of_fmap_2. assumption.
Qed.

Lemma set_columns_ID name description price id it :
  ID (set_columns name description price id it) = ID it.
Proof. unfold set_columns. destruct (decide (ID it = id)); reflexivity. Qed.

Lemma set_columns_other name description price id it :
  ID it <> id -> set_columns name description price id it = it.
Proof.
  intros Hne. unfold set_columns.
  destruct (decide (ID it = id)); [contradiction | reflexivity].
Qed.

Lemma update_ids name description price id l :
  ID <$> (set_columns name description price id <$> l) = ID <$> l.
Proof.
  rewrite <- list_fmap_compose. apply list_fmap_ext.
  intros i x _. apply set_columns_ID.
Qed.

Lemma update_absent name description price id l :
  id ∉ ID <$> l -> set_columns name description price id <$> l = l.
Proof.
  intros Hnot. rewrite <- (list_fmap_id l) at 2. apply list_fmap_ext.
  intros i x Hx. apply set_columns_other. intros Heq. apply Hnot.
  rewrite <- Heq. apply list_elem_of_fmap_2.
  eapply list_elem_of_lookup_2. exact Hx.
Qed.

Lemma delete_gone id l : id ∉ ID <$> filter (λ it, ID it ≠ id) l.
Proof.
  intros Hin. apply list_elem_of_fmap in Hin as (it & -> & Hit).
  apply list_elem_of_filter in Hit as [Hne _]. congruence.
Qed.

Lemma Forall_kept (P Q : Item -> Prop) `{!∀ x, Decision (Q x)} l :
  Forall P l -> Forall P (filter Q l).
Proof.
  rewrite !Forall_forall. intros HP x Hx.
  apply list_elem_of_filter in Hx as [_ Hx]. auto.
Qed.

(** Every statement keeps the ids distinct. *)
Lemma exec_unique q st :
  NoDup (ids st) -> NoDup (ids (fst (exec q st))).
Proof.
  intros Hnd. destruct q as [n d p | | id | n d p id | id]; simpl.
  - destruct (decide (strconv.maxInt < next_id st)); [assumption |].
    destruct (decide (next_id st ∈ ids st)) as [Hin | Hnot]; simpl;
      [assumption |].
    unfold ids in *. simpl.
    rewrite fmap_app. apply NoDup_app. repeat split.
    + assumption.
    + intros x Hx Hx'. apply list_elem_of_singleton in Hx'. subst x.
      contradiction.
    + apply NoDup_singleton.
  - assumption.
  - assumption.
  - unfold ids. simpl. rewrite update_ids. assumption.
  - apply (sublist_NoDup _ (ids st) Hnd).
    apply fmap_sublist, sublist_filter.
Qed.

(** The sequence never moves back. *)
Lemma exec_next_id q st : next_id st <= next_id (fst (exec q st)).
Proof.
  destruct q as [n d p | | id | n d p id | id]; simpl; try lia.
  destruct (decide (strconv.maxInt < next_id st)); simpl; [lia |].
  destruct (decide (next_id st ∈ ids st)); simpl; lia.
Qed.

Lemma exec_wf q st : finite_args q -> wf st -> wf (fst (exec q st)).
Proof.
  intros Hq Hwf. pose proof (exec_unique q st (wf_unique _ Hwf)) as Hu.
  destruct Hwf as [_ Hseq Hbelow Hfin]. unfold finite_prices in *.
  destruct q as [n d p | | id | n d p id | id]; simpl in *.
  - destruct (decide (strconv.maxInt < next_id st)); simpl in *;
      [constructor; assumption |].
    destruct (decide (next_id st ∈ ids st)); simpl in *.
    + constructor; simpl; try assumption; try lia.
      eapply Forall_impl; [exact Hbelow |]. simpl. intros; lia.
    + constructor; simpl; try assumption; try lia.
      * apply Forall_app. split.
        -- eapply Forall_impl; [exact Hbelow |]. simpl. intros; lia.
        -- constructor; [simpl; lia | constructor].
      * unfold finite_prices. simpl. apply Forall_app. split; [assumption |].
        constructor; [assumption | constructor].
  - constructor; assumption.
  - constructor; assumption.
  - constructor; simpl; try assumption.
    + apply Forall_fmap. eapply Forall_impl; [exact Hbelow |].
      intros it Hit. simpl. rewrite set_columns_ID. assumption.
    + unfold finite_prices. simpl. apply Forall_fmap.
      eapply Forall_impl; [exact Hfin |]. intros it Hit. simpl.
      unfold set_columns. destruct (decide (ID it = id)); assumption.
  - constructor; simpl; try assumption.
    + apply Forall_kept. assumption.
    + unfold finite_prices. simpl. apply Forall_kept. assumption.
Qed.

End Table.

(** ** encoding/json: what [Decode] accepts *)

Section Decode.

Import json.

Lemma ParseFloat_finite n f : ParseFloat n = Some f -> is_finite f = true.
Proof.
  unfold ParseFloat. intros H.
  match type of H with
  | (if is_finite ?x then _ else _) = _ => destruct (is_finite x) eqn:Hfin
  end; [| discriminate].
  injection H as <-. assumption.
Qed.

Lemma store_price_finite fld v it :
  is_finite (Price it) = true -> is_finite (Price (store fld v it).1) = true.
Proof.
  intros Hfin. destruct v as [| b | n | s | l | ms], fld; simpl; try assumption.
  - destruct (ParseInt n); simpl; assumption.
  - destruct (ParseFloat n) as [f |] eqn:Hf; simpl; [| assumption].
    eapply ParseFloat_finite. eassumption.
Qed.

Lemma object_price_finite ms : forall it saved,
  is_finite (Price it) = true ->
  is_finite (Price (object ms it saved).1) = true.
Proof.
  induction ms as [| [key v] ms IH]; intros it saved Hfin; simpl;
    [assumption |].
  destruct (field_of_key key) as [fld |]; [| auto].
  pose proof (store_price_finite fld v it Hfin) as Hst.
  destruct (store fld v it) as [it' e]. auto.
Qed.

(** The price [Decode] leaves in the item is a number. *)
Lemma Decode_price_finite b it :
  is_finite (Price it) = true -> is_finite (Price (Decode b it).1) = true.
Proof.
  intros Hfin. destruct b as [msg | v]; simpl; [assumption |].
  destruct v; simpl; try assumption. apply object_price_finite. assumption.
Qed.

Lemma store_error_any fld v it it' : (store fld v it).2 = (store fld v it').2.
Proof.
  destruct v as [| b | n | s | l | ms], fld; simpl; try reflexivity.
  - destruct (ParseInt n); reflexivity.
  - destruct (ParseFloat n); reflexivity.
Qed.

(** An object is refused exactly for a member that does not fit. *)
Lemma object_error ms : forall it saved,
  (object ms it saved).2 = None <-> saved = None /\ forallb fits ms = true.
Proof.
  induction ms as [| [key v] ms IH]; intros it saved; simpl.
  - tauto.
  - unfold fits at 1. simpl.
    destruct (field_of_key key) as [fld |]; simpl; [| apply IH].
    rewrite (store_error_any fld v zeroItem it).
    destruct (store fld v it) as [it' e]. simpl. rewrite IH.
    destruct saved, e; simpl; intuition congruence.
Qed.

Lemma Decode_object ms it :
  (Decode (FirstValue (Object ms)) it).2 = None <-> forallb fits ms = true.
Proof. simpl. rewrite object_error. tauto. Qed.

(** A body that cannot be read is an error. *)
Lemma Decode_NoValue msg it :
  Decode (NoValue msg) it = (it, Some (SyntaxError msg)).
Proof. reflexivity. Qed.

End Decode.

(** The body [{name, description, price}] decodes to these fields. *)
Lemma Decode_item_body name description num price :
  json.ParseFloat num = Some price ->
  json.Decode (item_body name description num) zeroItem
  = (mkItem 0 name description price, None).
Proof.
  intros Hp. unfold item_body, json.Decode, json.unmarshal.
  cbn [json.object].
  change (json.field_of_key "name") with (Some json.FName).
  change (json.field_of_key "description") with (Some json.FDescription).
  change (json.field_of_key "price") with (Some json.FPrice).
  cbn [json.store with_Name with_Description with_Price json.saveError
       json.object ID Name Description Price zeroItem].
  rewrite Hp. reflexivity.
Qed.

(** ** net/http: the responses the handlers complete *)

Section Responses.

Lemma finish_Error msg code :
  http.bodyAllowedForStatus code = true ->
  http.finish (http.Error msg code http.newWriter) = error_response code msg.
Proof.
  intros Hcode. unfold http.Error, http.Write.
  cbn [http.WriteHeader http.Header_Set http.Header_Del http.newWriter
       http.wroteHeader http.header http.written].
  rewrite Hcode. reflexivity.
Qed.

Lemma finish_Encode v :
  http.finish
    (http.Encode (Some v)
       (http.Header_Set "Content-Type" "application/json" http.newWriter))
  = json_response v.
Proof. reflexivity. Qed.

Lemma finish_Encode_nothing :
  http.finish
    (http.Encode None
       (http.Header_Set "Content-Type" "application/json" http.newWriter))
  = http.mkResponse http.StatusOK json_headers [].
Proof. reflexivity. Qed.

Lemma finish_NoContent :
  http.finish (http.WriteHeader http.StatusNoContent http.newWriter)
  = http.mkResponse http.StatusNoContent ∅ [].
Proof. reflexivity. Qed.

Lemma finish_NoContent_json :
  http.finish
    (http.WriteHeader http.StatusNoContent
       (http.Header_Set "Content-Type" "application/json" http.newWriter))
  = http.mkResponse http.StatusNoContent json_headers [].
Proof. reflexivity. Qed.

Lemma marshal_Item_finite it :
  is_finite (Price it) = true -> json.marshal_Item it = Some (item_json it).
Proof.
  intros Hfin. unfold json.marshal_Item, json.marshal_float.
  rewrite Hfin. reflexivity.
Qed.

Lemma marshal_list_finite l :
  Forall (fun it => is_finite (Price it) = true) l ->
  json.marshal_list l = Some (item_json <$> l).
Proof.
  induction 1 as [| it l Hit Hl IH]; simpl; [reflexivity |].
  rewrite marshal_Item_finite, IH by assumption. reflexivity.
Qed.

End Responses.

(** ** The handlers *)

Section Handlers.

Implicit Types (rt : Route) (fault : sql.Fault) (r : http.Request)
  (db : sql.DB).

(** A handler touches the store only through its one statement. *)
Lemma serve_db rt fault r db :
  (serve rt fault r db).1
  = match statement_of rt r with
    | None => db
    | Some q => (sql.send fault q db).1
    end.
Proof. destruct rt; open_handler; split_cases. Qed.

Lemma send_store fault q db :
  sql.store (sql.send fault q db).1 = sql.store db
  \/ sql.store (sql.send fault q db).1 = (sql.exec q (sql.store db)).1.
Proof.
  unfold sql.send. destruct fault; [left; reflexivity | right].
  destruct (sql.exec q (sql.store db)); reflexivity.
Qed.

Lemma send_sent fault q db :
  sql.sent (sql.send fault q db).1 = sql.sent db ++ [q].
Proof.
  unfold sql.send. destruct fault; [reflexivity |].
  destruct (sql.exec q (sql.store db)); reflexivity.
Qed.

Lemma statement_of_finite rt r q :
  statement_of rt r = Some q -> finite_args q.
Proof.
  pose proof (Decode_price_finite (http.ReqBody r) zeroItem eq_refl) as Hfin.
  destruct rt; unfold statement_of; intros Hq; split_cases; simpl; auto.
Qed.

Lemma shape_Error rt msg code :
  400 <= code -> http.bodyAllowedForStatus code = true ->
  shape rt (http.finish (http.Error msg code http.newWriter)).
Proof. intros. rewrite finish_Error by assumption. constructor. assumption. Qed.

Lemma shape_Encode rt v :
  rt <> PUT_item -> rt <> DELETE_item ->
  shape rt
    (http.finish
       (http.Encode v
          (http.Header_Set "Content-Type" "application/json" http.newWriter))).
Proof.
  intros. destruct v.
  - rewrite finish_Encode. constructor; assumption.
  - rewrite finish_Encode_nothing. constructor; assumption.
Qed.

(** Every response of a route has one of its shapes. *)
Lemma serve_shape rt fault r db : shape rt (serve rt fault r db).2.
Proof.
  destruct rt; open_handler; unfold sql.send; split_cases;
    cbn [snd];
    first [ apply shape_Error; [unfold http.StatusBadRequest,
              http.StatusNotFound, http.StatusInternalServerError; lia
            | reflexivity]
          | apply shape_Encode; discriminate
          | rewrite finish_NoContent_json; constructor
          | rewrite finish_NoContent; constructor ].
Qed.

(** The store is left as it was or as the statement leaves it. *)
Lemma serve_store rt fault r db :
  sql.store (serve rt fault r db).1 = sql.store db
  \/ exists q, statement_of rt r = Some q
               /\ sql.store (serve rt fault r db).1
                  = (sql.exec q (sql.store db)).1.
Proof.
  rewrite serve_db. destruct (statement_of rt r) as [q |] eqn:Hq; [| auto].
  destruct (send_store fault q db) as [H | H]; [auto | right; eauto].
Qed.

Lemma serve_unique rt fault r db :
  NoDup (sql.ids (sql.store db)) ->
  NoDup (sql.ids (sql.store (serve rt fault r db).1)).
Proof.
  intros Hnd. destruct (serve_store rt fault r db) as [-> | (q & _ & ->)];
    [assumption | apply exec_unique; assumption].
Qed.

Lemma serve_wf rt fault r db :
  wf (sql.store db) -> wf (sql.store (serve rt fault r db).1).
Proof.
  intros Hwf. destruct (serve_store rt fault r db) as [-> | (q & Hq & ->)];
    [assumption |].
  apply exec_wf; [eapply statement_of_finite; eassumption | assumption].
Qed.

Lemma serve_next_id rt fault r db :
  sql.next_id (sql.store db) <= sql.next_id (sql.store (serve rt fault r db).1).
Proof.
  destruct (serve_store rt fault r db) as [-> | (q & _ & ->)];
    [lia | apply exec_next_id].
Qed.

Lemma serve_all_wf calls : forall db,
  wf (sql.store db) -> wf (sql.store (serve_all calls db).1).
Proof.
  induction calls as [| [[rt fault] r] calls IH]; intros db Hwf; simpl;
    [assumption |].
  pose proof (serve_wf rt fault r db Hwf) as H1.
  destruct (serve rt fault r db) as [db1 resp].
  specialize (IH db1 H1). destruct (serve_all calls db1) as [db2 resps].
  assumption.
Qed.

End Handlers.

(** ** The handlers, case by case *)

Section Equations.

Implicit Types (rt : Route) (fault : sql.Fault) (r : http.Request)
  (db : sql.DB) (it : Item) (id : Z).

Lemma param_item_request seg b : param (item_request seg b) "id" = seg.
Proof. unfold param, item_request. simpl. rewrite lookup_singleton_eq. reflexivity. Qed.

(** A body [Decode] refuses: 400, and the handle is not touched. *)
Lemma createItem_refused fault r db it e :
  json.Decode (http.ReqBody r) zeroItem = (it, Some e) ->
  serve POST_items fault r db
  = (db, error_response http.StatusBadRequest (ErrorText e)).
Proof.
  intros Hd. open_handler. rewrite Hd.
  rewrite finish_Error by reflexivity. reflexivity.
Qed.

(** The row a create inserts when the store takes it. *)
Lemma createItem_created r db it :
  json.Decode (http.ReqBody r) zeroItem = (it, None) ->
  sql.next_id (sql.store db) <= strconv.maxInt ->
  sql.next_id (sql.store db) ∉ sql.ids (sql.store db) ->
  let id := sql.next_id (sql.store db) in
  let item := mkItem id (Name it) (Description it) (Price it) in
  serve POST_items None r db
  = (sql.mkDB (sql.mkStore (sql.rows (sql.store db) ++ [item]) (id + 1))
       (sql.sent db ++ [sql.INSERT (Name it) (Description it) (Price it)]),
     json_response (item_json item)).
Proof.
  intros Hd Hmax Hfresh id item.
  pose proof (Decode_price_finite (http.ReqBody r) zeroItem eq_refl) as Hfin.
  rewrite Hd in Hfin. simpl in Hfin.
  open_handler. rewrite Hd. unfold sql.send. cbn [sql.exec].
  destruct (decide (strconv.maxInt < sql.next_id (sql.store db))); [lia |].
  destruct (decide (sql.next_id (sql.store db) ∈ sql.ids (sql.store db)));
    [contradiction |].
  cbn [sql.Scan1 with_ID Name Description Price].
  rewrite marshal_Item_finite by assumption.
  rewrite finish_Encode. reflexivity.
Qed.

(** A path segment [Atoi] refuses: 400, and the handle is not touched. *)
Lemma invalid_id rt fault r db e :
  rt = GET_item \/ rt = PUT_item \/ rt = DELETE_item ->
  strconv.Atoi (param r "id") = inl e ->
  serve rt fault r db
  = (db, error_response http.StatusBadRequest "Invalid item ID").
Proof.
  intros [-> | [-> | ->]] Ha; open_handler; rewrite Ha;
    rewrite finish_Error by reflexivity; reflexivity.
Qed.

Lemma getItem_not_found r db id :
  strconv.Atoi (param r "id") = inr id ->
  id ∉ sql.ids (sql.store db) ->
  serve GET_item None r db
  = (sql.mkDB (sql.store db) (sql.sent db ++ [sql.SELECT_by_id id]),
     error_response http.StatusNotFound "Item not found").
Proof.
  intros Ha Hnot. open_handler. rewrite Ha. unfold sql.send. cbn [sql.exec].
  rewrite filter_absent by assumption. cbn [fmap list_fmap].
  rewrite finish_Error by reflexivity. reflexivity.
Qed.

Lemma getItem_found r db it :
  strconv.Atoi (param r "id") = inr (ID it) ->
  NoDup (sql.ids (sql.store db)) ->
  it ∈ sql.rows (sql.store db) ->
  is_finite (Price it) = true ->
  serve GET_item None r db
  = (sql.mkDB (sql.store db) (sql.sent db ++ [sql.SELECT_by_id (ID it)]),
     json_response (item_json it)).
Proof.
  intros Ha Hnd Hin Hfin. open_handler. rewrite Ha. unfold sql.send.
  cbn [sql.exec]. rewrite filter_present by assumption.
  cbn [fmap list_fmap sql.row_of sql.Scan4].
  destruct it as [i n d p]. cbn [ID Name Description Price] in *.
  rewrite marshal_Item_finite by assumption.
  rewrite finish_Encode. reflexivity.
Qed.

Lemma scan_rows_all (l : list Item) : forall acc,
  scan_rows (sql.row_of <$> l) (slice_of acc) = (slice_of (acc ++ l), None).
Proof.
  induction l as [| [i n d p] l IH]; intros acc.
  - rewrite app_nil_r. reflexivity.
  - rewrite fmap_cons. cbn [scan_rows sql.row_of sql.Scan4 append
                             ID Name Description Price].
    rewrite IH, <- app_assoc. reflexivity.
Qed.

Lemma getItems_all r db :
  finite_prices (sql.store db) ->
  serve GET_items None r db
  = (sql.mkDB (sql.store db) (sql.sent db ++ [sql.SELECT_all]),
     json_response (json.Array (item_json <$> sql.rows (sql.store db)))).
Proof.
  intros Hfin. open_handler. unfold sql.send. cbn [sql.exec].
  rewrite scan_rows_all. cbn [app json.marshal_Items].
  rewrite marshal_list_finite by assumption.
  rewrite finish_Encode. reflexivity.
Qed.

Lemma updateItem_done r db id it :
  strconv.Atoi (param r "id") = inr id ->
  json.Decode (http.ReqBody r) zeroItem = (it, None) ->
  serve PUT_item None r db
  = (sql.mkDB
       (sql.mkStore
          (sql.set_columns (Name it) (Description it) (Price it) id
             <$> sql.rows (sql.store db))
          (sql.next_id (sql.store db)))
       (sql.sent db
          ++ [sql.UPDATE (Name it) (Description it) (Price it) id]),
     http.mkResponse http.StatusNoContent json_headers []).
Proof.
  intros Ha Hd. open_handler. rewrite Ha, Hd. unfold sql.send.
  cbn [sql.exec]. rewrite finish_NoContent_json. reflexivity.
Qed.

Lemma deleteItem_done r db id :
  strconv.Atoi (param r "id") = inr id ->
  serve DELETE_item None r db
  = (sql.mkDB
       (sql.mkStore (filter (λ it, ID it ≠ id) (sql.rows (sql.store db)))
          (sql.next_id (sql.store db)))
       (sql.sent db ++ [sql.DELETE id]),
     http.mkResponse http.StatusNoContent ∅ []).
Proof.
  intros Ha. open_handler. rewrite Ha. unfold sql.send.
  cbn [sql.exec]. rewrite finish_NoContent. reflexivity.
Qed.

End Equations.

(** ** Runs of requests *)

Section History.

Implicit Types (rt : Route) (fault : sql.Fault) (r : http.Request)
  (db : sql.DB) (it : Item) (id : Z).

Lemma int_value_int_lit z : json.int_value (z <? 0) (Z.abs_N z) = z.
Proof.
  unfold json.int_value. rewrite N2Z.inj_abs_N.
  destruct (Z.ltb_spec z 0); lia.
Qed.

Lemma returned_id_error code msg :
  400 <= code -> returned_id (error_response code msg) = None.
Proof.
  intros Hc. unfold returned_id, error_response. simpl.
  destruct (Z.eqb_spec code http.StatusOK) as [-> |]; [| reflexivity].
  unfold http.StatusOK in Hc. lia.
Qed.

(** The id in the response of a create is the one the sequence gave. *)
Lemma createItem_returned fault r db id :
  returned_id (serve POST_items fault r db).2 = Some id ->
  id = sql.next_id (sql.store db)
  /\ sql.next_id (sql.store (serve POST_items fault r db).1) = id + 1.
Proof.
  open_handler. unfold sql.send.
  destruct (json.Decode (http.ReqBody r) zeroItem) as [it [e |]].
  { cbn [snd]. rewrite finish_Error by reflexivity.
    rewrite returned_id_error by (unfold http.StatusBadRequest; lia).
    discriminate. }
  destruct fault as [msg |].
  { cbn [snd]. rewrite finish_Error by reflexivity.
    rewrite returned_id_error by (unfold http.StatusInternalServerError; lia).
    discriminate. }
  cbn [sql.exec].
  destruct (decide (strconv.maxInt < sql.next_id (sql.store db))).
  { cbn [snd]. rewrite finish_Error by reflexivity.
    rewrite returned_id_error by (unfold http.StatusInternalServerError; lia).
    discriminate. }
  destruct (decide (sql.next_id (sql.store db) ∈ sql.ids (sql.store db))).
  { cbn [snd]. rewrite finish_Error by reflexivity.
    rewrite returned_id_error by (unfold http.StatusInternalServerError; lia).
    discriminate. }
  cbn [sql.Scan1 with_ID snd fst sql.store sql.next_id].
  unfold json.marshal_Item.
  destruct (json.marshal_float _); cbn [ID].
  - rewrite finish_Encode. unfold returned_id, json_response. simpl.
    rewrite int_value_int_lit. intros [= <-]. auto.
  - rewrite finish_Encode_nothing. discriminate.
Qed.

(** The ids the creates of a run returned lie between the sequence
    before and the sequence after. *)
Lemma created_ids_bounds calls : forall db id,
  id ∈ created_ids (serve_all calls db).2 ->
  sql.next_id (sql.store db) <= id
  < sql.next_id (sql.store (serve_all calls db).1).
Proof.
  induction calls as [| [[rt fault] r] calls IH]; intros db id; simpl.
  - intros H. inversion H.
  - pose proof (serve_next_id rt fault r db) as Hstep.
    pose proof (createItem_returned fault r db) as Hret.
    destruct (serve rt fault r db) as [db1 resp] eqn:Hs.
    specialize (IH db1).
    assert (sql.next_id (sql.store db1)
            <= sql.next_id (sql.store (serve_all calls db1).1)) as Hmono.
    { clear. revert db1. induction calls as [| [[rt fault] r] calls IH];
        intros db1; simpl; [lia |].
      pose proof (serve_next_id rt fault r db1) as Hstep.
      destruct (serve rt fault r db1) as [db2 resp].
      specialize (IH db2). destruct (serve_all calls db2). simpl in *. lia. }
    destruct (serve_all calls db1) as [db2 resps]. simpl in *.
    intros Hin.
    assert (id ∈ created_ids resps
            \/ (rt = POST_items /\ returned_id resp = Some id)) as [H | [-> H]].
    { destruct rt; auto. destruct (returned_id resp); auto.
      apply elem_of_cons in Hin as [-> | Hin]; auto. }
    + specialize (IH id H). lia.
    + rewrite Hs in Hret. destruct (Hret id H) as [-> Hnext]. simpl in *. lia.
Qed.

End History.

(** ** The contract *)

Lemma wf_empty : wf sql.empty.
Proof.
  constructor; simpl; [apply NoDup_nil_2 | lia | constructor | constructor].
Qed.

(** C1: for every valid input {name, description, price}, create answers
    200 with an Item whose id is positive, was returned by no earlier
    create of the run and is the id of no row yet, and a get with that id
    then answers 200 with an equal Item. The run starts from any
    well-formed store; the connection does not fail on the two requests and
    the sequence has an id left. *)
Theorem create_then_get (calls : list Call) (db0 : sql.DB)
    (name description : string) (num : json.Number) (price : float64)
    (b : json.Body) :
  wf (sql.store db0) ->
  json.ParseFloat num = Some price ->
  sql.next_id (sql.store (serve_all calls db0).1) <= strconv.maxInt ->
  let db := (serve_all calls db0).1 in
  let created :=
    serve POST_items None (items_request (item_body name description num)) db in
  exists id,
    created.2 = json_response (item_json (mkItem id name description price))
    /\ 0 < id
    /\ (id ∉ created_ids (serve_all calls db0).2)
    /\ (id ∉ sql.ids (sql.store db))
    /\ (serve GET_item None (item_request (strconv.Itoa id) b) created.1).2
       = json_response (item_json (mkItem id name description price)).
Proof.
  intros Hwf0 Hnum Hmax db created.
  pose proof (serve_all_wf calls db0 Hwf0) as Hwf. fold db in Hwf, Hmax.
  pose proof (Decode_item_body name description num price Hnum) as Hd.
  assert (sql.next_id (sql.store db) ∉ sql.ids (sql.store db)) as Hfresh.
  { intros Hin. apply list_elem_of_fmap in Hin as (it & Heq & Hit).
    pose proof (wf_below _ Hwf) as Hb. rewrite Forall_forall in Hb.
    specialize (Hb it Hit). lia. }
  pose proof (createItem_created
                (items_request (item_body name description num)) db _
                Hd Hmax Hfresh) as Hc.
  cbn zeta in Hc. cbn [Name Description Price] in Hc. fold created in Hc.
  set (id := sql.next_id (sql.store db)) in *.
  set (item := mkItem id name description price) in *.
  pose proof (serve_wf POST_items None
                (items_request (item_body name description num)) db Hwf) as Hwf'.
  fold created in Hwf'. rewrite Hc in *. cbn [fst snd] in *.
  exists id. repeat split.
  - pose proof (wf_seq _ Hwf). lia.
  - intros Hin. apply created_ids_bounds in Hin. fold db in Hin. lia.
  - exact Hfresh.
  - assert (strconv.Atoi (strconv.Itoa id) = inr id) as Ha.
    { apply Atoi_Itoa. apply in_int_spec. pose proof (wf_seq _ Hwf).
      unfold strconv.minInt, strconv.maxInt, strconv.intSize in *. simpl in *.
      lia. }
    rewrite (getItem_found _ _ item).
    + reflexivity.
    + rewrite param_item_request. exact Ha.
    + apply (wf_unique _ Hwf').
    + cbn [sql.store sql.rows]. apply elem_of_app. right. apply list_elem_of_singleton. reflexivity.
    + eapply ParseFloat_finite. eassumption.
Qed.

Lemma refused_Decode b :
  refused b = true <-> exists e, (json.Decode b zeroItem).2 = Some e.
Proof.
  destruct b as [msg | v]; simpl.
  - split; eauto.
  - destruct v as [| ? | ? | ? | ? | ms]; simpl;
      try (split; [eauto | reflexivity]).
    + split; [discriminate | intros [e He]; discriminate].
    + pose proof (object_error ms zeroItem None) as Hobj.
      destruct (json.object ms zeroItem None) as [it [e |]]; simpl in *.
      * split; [eauto | intros _].
        destruct (forallb fits ms); [| reflexivity].
        destruct Hobj as [_ Hobj]. discriminate Hobj. auto.
      * destruct Hobj as [Hobj _]. destruct (Hobj eq_refl) as [_ ->].
        split; [discriminate | intros [e He]; discriminate].
Qed.

(** C2, as amended: a create whose body is malformed JSON (no JSON value
    can be read from it), or whose JSON value does not fit an Item (not an
    object, or a member of the wrong type for its field), is answered 400,
    sends no statement and leaves the store as it was; no other create is
    answered 400, so an object is not refused for a missing field. *)
Theorem create_refuses_what_Decode_refuses (fault : sql.Fault)
    (r : http.Request) (db : sql.DB) :
  let out := serve POST_items fault r db in
  (http.StatusCode out.2 = 400 <-> refused (http.ReqBody r) = true)
  /\ (refused (http.ReqBody r) = true ->
      out.1 = db /\ exists msg, out.2 = error_response 400 msg).
Proof.
  intros out. subst out.
  destruct (json.Decode (http.ReqBody r) zeroItem) as [it [e |]] eqn:Hd.
  - assert (refused (http.ReqBody r) = true) as Href
      by (apply refused_Decode; rewrite Hd; eauto).
    rewrite (createItem_refused fault r db it e Hd). simpl.
    split; [tauto | eauto].
  - assert (refused (http.ReqBody r) <> true) as Href.
    { rewrite refused_Decode, Hd. intros [e He]. discriminate. }
    split; [| tauto]. split; [| tauto]. intros Hst. exfalso.
    pose proof (serve_shape POST_items fault r db) as Hsh.
    revert Hst Hsh. open_handler. rewrite Hd. unfold sql.send.
    split_cases; cbn [snd];
      rewrite ?finish_Error by reflexivity;
      try (destruct (json.marshal_Item _);
           rewrite ?finish_Encode, ?finish_Encode_nothing);
      simpl; discriminate.
Qed.

(** C3: listing an empty store answers 200 with the JSON array [[]], not
    [null] and not an empty body; in general the body is the array of
    exactly the items of the store (whose prices are numbers), and the
    store is left as it was. *)
Theorem list_is_an_array (r : http.Request) (db : sql.DB) :
  finite_prices (sql.store db) ->
  let out := serve GET_items None r db in
  out.2 = json_response (json.Array (item_json <$> sql.rows (sql.store db)))
  /\ sql.store out.1 = sql.store db
  /\ (sql.rows (sql.store db) = [] ->
      http.Body out.2 = [http.JSONLine (json.Array [])]
      /\ http.Body out.2 <> [http.JSONLine json.Null]
      /\ http.Body out.2 <> []).
Proof.
  intros Hfin out. subst out. rewrite getItems_all by assumption. cbn [fst snd].
  split; [reflexivity |]. split; [reflexivity |].
  intros ->. simpl. repeat split; discriminate.
Qed.

(** C4: a get with an id that no item of the store has answers 404 with
    the message "Item not found"; a get with the id of an item of the store
    answers 200 with that item as JSON. *)
Theorem get_by_id (r : http.Request) (db : sql.DB) (id : Z) :
  strconv.Atoi (param r "id") = inr id ->
  let out := serve GET_item None r db in
  (id ∉ sql.ids (sql.store db) ->
   out.2 = error_response 404 "Item not found")
  /\ (forall it, it ∈ sql.rows (sql.store db) -> ID it = id ->
      NoDup (sql.ids (sql.store db)) -> is_finite (Price it) = true ->
      out.2 = json_response (item_json it)).
Proof.
  intros Ha out. subst out. split.
  - intros Hnot. rewrite (getItem_not_found r db id) by assumption. reflexivity.
  - intros it Hin <- Hnd Hfin.
    rewrite (getItem_found r db it) by assumption. reflexivity.
Qed.

(** C5: an update with an id that no item of the store has, and a body
    that decodes, answers 204 (not 404) with an empty body and leaves the
    store as it was: no row is created, none is changed, and the number of
    rows is the same. *)
Theorem update_of_absent_id (r : http.Request) (db : sql.DB) (id : Z)
    (item : Item) :
  strconv.Atoi (param r "id") = inr id ->
  json.Decode (http.ReqBody r) zeroItem = (item, None) ->
  id ∉ sql.ids (sql.store db) ->
  let out := serve PUT_item None r db in
  http.StatusCode out.2 = 204
  /\ http.Body out.2 = []
  /\ sql.store out.1 = sql.store db
  /\ length (sql.rows (sql.store out.1)) = length (sql.rows (sql.store db)).
Proof.
  intros Ha Hd Hnot out. subst out.
  rewrite (updateItem_done r db id item) by assumption. cbn [fst snd].
  rewrite update_absent by assumption.
  destruct db as [[rows next] sent]. simpl. auto.
Qed.

(** C6: a delete answers 204 with an empty body, after it no item of the
    store has the id, and a get with that id answers 404. *)
Theorem delete_then_get (r r' : http.Request) (db : sql.DB) (id : Z) :
  strconv.Atoi (param r "id") = inr id ->
  param r' "id" = param r "id" ->
  let deleted := serve DELETE_item None r db in
  http.StatusCode deleted.2 = 204
  /\ http.Body deleted.2 = []
  /\ (id ∉ sql.ids (sql.store deleted.1))
  /\ (serve GET_item None r' deleted.1).2
     = error_response 404 "Item not found".
Proof.
  intros Ha Hr deleted. subst deleted.
  rewrite (deleteItem_done r db id) by assumption. cbn [fst snd].
  assert (id ∉ sql.ids
            (sql.mkStore (filter (λ it, ID it ≠ id) (sql.rows (sql.store db)))
               (sql.next_id (sql.store db)))) as Hgone
    by apply delete_gone.
  repeat split; try assumption.
  rewrite (getItem_not_found r' _ id); [reflexivity | congruence | assumption].
Qed.

(** C7: every operation keeps the ids distinct and rewrites none: a
    create leaves the rows or adds one row whose id no row had, the reads
    leave the store, an update keeps every row in place with its id and
    changes only the rows the path id selects, a delete only removes
    rows. *)
Theorem ids_unique_and_kept (rt : Route) (fault : sql.Fault)
    (r : http.Request) (db : sql.DB) :
  NoDup (sql.ids (sql.store db)) ->
  let st := sql.store db in
  let st' := sql.store (serve rt fault r db).1 in
  NoDup (sql.ids st')
  /\ match rt with
     | POST_items =>
         sql.rows st' = sql.rows st
         \/ exists it, sql.rows st' = sql.rows st ++ [it] /\ ID it ∉ sql.ids st
     | GET_items | GET_item => st' = st
     | PUT_item =>
         sql.ids st' = sql.ids st
         /\ forall n it, sql.rows st !! n = Some it ->
              exists it', sql.rows st' !! n = Some it'
                          /\ ID it' = ID it
                          /\ (strconv.Atoi (param r "id") <> inr (ID it) ->
                              it' = it)
     | DELETE_item => sublist (sql.rows st') (sql.rows st)
     end.
Proof.
  intros Hnd st st'. split; [apply serve_unique; assumption |].
  subst st st'.
  destruct (serve_store rt fault r db) as [-> | (q & Hq & ->)].
  { destruct rt; auto. split; [reflexivity |]. intros n it Hn. eauto. }
  destruct rt; unfold statement_of in Hq.
  - destruct (json.Decode (http.ReqBody r) zeroItem) as [it [e |]];
      [discriminate |].
    injection Hq as <-. cbn [sql.exec].
    destruct (decide (strconv.maxInt < sql.next_id (sql.store db)));
      [auto |].
    destruct (decide (sql.next_id (sql.store db) ∈ sql.ids (sql.store db)));
      [auto |].
    right. eexists. split; [reflexivity | assumption].
  - injection Hq as <-. reflexivity.
  - destruct (strconv.Atoi (param r "id")); [discriminate |].
    injection Hq as <-. reflexivity.
  - destruct (strconv.Atoi (param r "id")) as [| id]; [discriminate |].
    destruct (json.Decode (http.ReqBody r) zeroItem) as [item [e |]];
      [discriminate |].
    injection Hq as <-. cbn [sql.exec fst]. unfold sql.ids. cbn [sql.rows].
    split; [apply update_ids |].
    intros n it Hn. rewrite list_lookup_fmap, Hn. cbn [fmap option_fmap option_map].
    eexists. split; [reflexivity |].
    split; [apply set_columns_ID |].
    intros Hne. apply set_columns_other. congruence.
  - destruct (strconv.Atoi (param r "id")) as [| id]; [discriminate |].
    injection Hq as <-. cbn [sql.exec fst sql.rows]. apply sublist_filter.
Qed.

(** C8: a get, update or delete whose id path segment [Atoi] does not
    parse answers 400 with the message "Invalid item ID"; the handle is
    left as it was: no statement is sent and the store is unchanged,
    whatever the connection would have done. *)
Theorem invalid_id_is_bad_request (rt : Route) (fault : sql.Fault)
    (r : http.Request) (db : sql.DB) (e : strconv.NumError) :
  rt = GET_item \/ rt = PUT_item \/ rt = DELETE_item ->
  strconv.Atoi (param r "id") = inl e ->
  let out := serve rt fault r db in
  out.2 = error_response 400 "Invalid item ID"
  /\ sql.sent out.1 = sql.sent db
  /\ sql.store out.1 = sql.store db.
Proof.
  intros Hrt Ha out. subst out.
  rewrite (invalid_id rt fault r db e Hrt Ha). auto.
Qed.

Lemma serve_encodes rt fault r db :
  finite_prices (sql.store db) ->
  rt = POST_items \/ rt = GET_items \/ rt = GET_item ->
  http.StatusCode (serve rt fault r db).2 = 200 ->
  exists v, (serve rt fault r db).2 = json_response v.
Proof.
  intros Hfin [-> | [-> | ->]].
  - pose proof (Decode_price_finite (http.ReqBody r) zeroItem eq_refl) as Hp.
    open_handler. unfold sql.send.
    destruct (json.Decode (http.ReqBody r) zeroItem) as [it [e |]].
    { cbn [snd]. rewrite finish_Error by reflexivity. discriminate. }
    cbn [fst] in Hp.
    split_cases; cbn [snd]; rewrite ?finish_Error by reflexivity;
      try discriminate.
    match goal with
    | H : sql.Scan1 _ _ = _ |- _ =>
        unfold sql.Scan1 in H; split_cases
    end.
    rewrite marshal_Item_finite by assumption.
    rewrite finish_Encode. eauto.
  - destruct fault as [msg |].
    + open_handler. unfold sql.send. cbn [snd].
      rewrite finish_Error by reflexivity. discriminate.
    + rewrite getItems_all by assumption. eauto.
  - open_handler. unfold sql.send.
    destruct (strconv.Atoi (param r "id")) as [e | id].
    { cbn [snd]. rewrite finish_Error by reflexivity. discriminate. }
    destruct fault as [msg |].
    { cbn [snd sql.Row_Scan]. rewrite finish_Error by reflexivity.
      discriminate. }
    cbn [sql.exec].
    destruct (filter (λ it, ID it = id) (sql.rows (sql.store db)))
      as [| it l] eqn:Hf.
    { cbn [snd fmap list_fmap]. rewrite finish_Error by reflexivity.
      discriminate. }
    assert (it ∈ sql.rows (sql.store db)) as Hin.
    { assert (it ∈ filter (λ it, ID it = id) (sql.rows (sql.store db))) as H
        by (rewrite Hf; left).
      apply list_elem_of_filter in H. tauto. }
    unfold finite_prices in Hfin. rewrite Forall_forall in Hfin.
    specialize (Hfin it Hin).
    rewrite fmap_cons. cbn [sql.row_of sql.Scan4 snd].
    destruct it as [i n d p]. cbn [ID Name Description Price] in *.
    rewrite marshal_Item_finite by assumption.
    rewrite finish_Encode. eauto.
Qed.

(** C9, as amended: a success response that has a body carries
    [Content-Type: application/json]; the success responses of create, list
    and get are 200 responses that set it and (the prices in the store
    being numbers) have a body; the success response of delete is a 204
    without body that sets no Content-Type. *)
Theorem content_type_of_success (rt : Route) (fault : sql.Fault)
    (r : http.Request) (db : sql.DB) :
  let resp := (serve rt fault r db).2 in
  success resp ->
  (http.Body resp <> [] -> json_content_type resp)
  /\ (rt = POST_items \/ rt = GET_items \/ rt = GET_item ->
      http.StatusCode resp = 200
      /\ json_content_type resp
      /\ (finite_prices (sql.store db) -> http.Body resp <> []))
  /\ (rt = DELETE_item ->
      http.StatusCode resp = 204
      /\ http.Body resp = []
      /\ http.Header resp !! "Content-Type" = None).
Proof.
  intros resp Hok.
  pose proof (serve_shape rt fault r db) as Hsh.
  pose proof (serve_encodes rt fault r db) as Henc.
  fold resp in Hsh, Henc. clearbody resp.
  unfold success, json_content_type in *.
  destruct Hsh as [rt code msg Hc | rt v H1 H2 | rt H1 H2 | |];
    cbn [http.StatusCode http.Body http.Header error_response json_response]
      in *.
  - lia.
  - split; [reflexivity |]. split.
    + intros _. repeat split. discriminate.
    + intros ->. contradiction.
  - split; [contradiction |]. split.
    + intros Hrt. repeat split. intros Hfin.
      destruct (Henc Hfin Hrt eq_refl) as [v Hv]. discriminate Hv.
    + intros ->. contradiction.
  - split; [contradiction |]. split; [| discriminate].
    intros [? | [? | ?]]; discriminate.
  - split; [contradiction |]. split.
    + intros [? | [? | ?]]; discriminate.
    + intros _. repeat split.
Qed.

(** C10, as amended: every integer string whose value fits Go's [int],
    zero and negative values such as "-5" included, is accepted as id path
    segment; when no item of the store has that id, get answers 404 while
    delete and update (with a body that decodes) answer 204. *)
Theorem integer_segment_is_accepted (r : http.Request) (db : sql.DB) :
  let seg := param r "id" in
  integer_string seg = true ->
  strconv.in_int (integer_value seg) = true ->
  integer_value seg ∉ sql.ids (sql.store db) ->
  strconv.Atoi seg = inr (integer_value seg)
  /\ http.StatusCode (serve GET_item None r db).2 = 404
  /\ http.StatusCode (serve DELETE_item None r db).2 = 204
  /\ (forall item, json.Decode (http.ReqBody r) zeroItem = (item, None) ->
      http.StatusCode (serve PUT_item None r db).2 = 204).
Proof.
  intros seg Hs Hin Hnot.
  pose proof (Atoi_integer_string seg Hs Hin) as Ha.
  split; [assumption |].
  rewrite (getItem_not_found r db (integer_value seg)) by assumption.
  rewrite (deleteItem_done r db (integer_value seg)) by assumption.
  repeat split. intros item Hd.
  rewrite (updateItem_done r db (integer_value seg) item) by assumption.
  reflexivity.
Qed.

(** ** The contract on sample requests *)

Lemma create_then_get_witness :
  let calls := [(POST_items, None, items_request widget)] in
  wf (sql.store new_db)
  /\ json.ParseFloat (json.Float price_19_99) = Some price_19_99
  /\ sql.next_id (sql.store (serve_all calls new_db).1) <= strconv.maxInt
  /\ exists id,
       (serve POST_items None (items_request widget2)
          (serve_all calls new_db).1).2
       = json_response (item_json (mkItem id "Widget2" "A widget" price_19_99))
       /\ 0 < id
       /\ (id ∉ created_ids (serve_all calls new_db).2)
       /\ (id ∉ sql.ids (sql.store (serve_all calls new_db).1))
       /\ (serve GET_item None (item_request (strconv.Itoa id) no_body)
             (serve POST_items None (items_request widget2)
                (serve_all calls new_db).1).1).2
          = json_response
              (item_json (mkItem id "Widget2" "A widget" price_19_99)).
Proof.
  intros calls.
  assert (wf (sql.store new_db)) as Hwf by exact wf_empty.
  assert (json.ParseFloat (json.Float price_19_99) = Some price_19_99) as Hp
    by reflexivity.
  assert (sql.next_id (sql.store (serve_all calls new_db).1)
          <= strconv.maxInt) as Hmax by (vm_compute; discriminate).
  split; [exact Hwf |]. split; [exact Hp |]. split; [exact Hmax |].
  exact (create_then_get calls new_db "Widget2" "A widget"
           (json.Float price_19_99) price_19_99 no_body Hwf Hp Hmax).
Defined.

(** C2, as stated, fails: the object [{"name": "Widget"}] misses
    description and price, and create answers 200 and inserts a row with
    the zero values for them. *)
Lemma create_accepts_missing_fields :
  let r := items_request
             (json.FirstValue (json.Object [("name", json.Str "Widget")])) in
  let out := serve POST_items None r new_db in
  missing_required_field (http.ReqBody r) = true
  /\ http.StatusCode out.2 = 200
  /\ sql.rows (sql.store out.1) = [mkItem 1 "Widget" "" PrimFloat.zero]
  /\ sql.store out.1 <> sql.store new_db.
Proof. vm_compute. repeat split. discriminate. Qed.

Lemma create_refuses_witness :
  let r := items_request (json.NoValue "unexpected EOF") in
  let out := serve POST_items None r widget_db in
  refused (http.ReqBody r) = true
  /\ out.1 = widget_db
  /\ exists msg, out.2 = error_response 400 msg.
Proof.
  intros r out. split; [reflexivity |].
  apply (create_refuses_what_Decode_refuses None r widget_db). reflexivity.
Defined.

Lemma list_is_an_array_witness :
  let out := serve GET_items None (items_request no_body) new_db in
  finite_prices (sql.store new_db)
  /\ out.2 = json_response
               (json.Array (item_json <$> sql.rows (sql.store new_db)))
  /\ sql.store out.1 = sql.store new_db
  /\ (sql.rows (sql.store new_db) = [] ->
      http.Body out.2 = [http.JSONLine (json.Array [])]
      /\ http.Body out.2 <> [http.JSONLine json.Null]
      /\ http.Body out.2 <> []).
Proof.
  intros out.
  assert (finite_prices (sql.store new_db)) as Hfin by constructor.
  split; [exact Hfin |].
  exact (list_is_an_array (items_request no_body) new_db Hfin).
Defined.

Lemma get_by_id_witness :
  let r := item_request "1" no_body in
  let out := serve GET_item None r widget_db in
  strconv.Atoi (param r "id") = inr 1
  /\ (1 ∉ sql.ids (sql.store widget_db) ->
      out.2 = error_response 404 "Item not found")
  /\ (forall it, it ∈ sql.rows (sql.store widget_db) -> ID it = 1 ->
      NoDup (sql.ids (sql.store widget_db)) -> is_finite (Price it) = true ->
      out.2 = json_response (item_json it)).
Proof.
  intros r out.
  assert (strconv.Atoi (param r "id") = inr 1) as Ha by reflexivity.
  split; [exact Ha |].
  exact (get_by_id r widget_db 1 Ha).
Defined.

Lemma update_of_absent_id_witness :
  let r := item_request "7" widget2 in
  let out := serve PUT_item None r widget_db in
  strconv.Atoi (param r "id") = inr 7
  /\ json.Decode (http.ReqBody r) zeroItem
     = (mkItem 0 "Widget2" "A widget" price_19_99, None)
  /\ (7 ∉ sql.ids (sql.store widget_db))
  /\ http.StatusCode out.2 = 204
  /\ http.Body out.2 = []
  /\ sql.store out.1 = sql.store widget_db
  /\ length (sql.rows (sql.store out.1))
     = length (sql.rows (sql.store widget_db)).
Proof.
  intros r out.
  assert (strconv.Atoi (param r "id") = inr 7) as Ha by reflexivity.
  assert (json.Decode (http.ReqBody r) zeroItem
          = (mkItem 0 "Widget2" "A widget" price_19_99, None)) as Hd
    by reflexivity.
  assert (7 ∉ sql.ids (sql.store widget_db)) as Hnot
    by (vm_compute; intros H; inversion H as [| ? ? ? H']; inversion H').
  split; [exact Ha |]. split; [exact Hd |]. split; [exact Hnot |].
  exact (update_of_absent_id r widget_db 7 _ Ha Hd Hnot).
Defined.

Lemma delete_then_get_witness :
  let r := item_request "1" no_body in
  let deleted := serve DELETE_item None r widget_db in
  strconv.Atoi (param r "id") = inr 1
  /\ param r "id" = param r "id"
  /\ http.StatusCode deleted.2 = 204
  /\ http.Body deleted.2 = []
  /\ (1 ∉ sql.ids (sql.store deleted.1))
  /\ (serve GET_item None r deleted.1).2
     = error_response 404 "Item not found".
Proof.
  intros r deleted.
  assert (strconv.Atoi (param r "id") = inr 1) as Ha by reflexivity.
  split; [exact Ha |]. split; [reflexivity |].
  exact (delete_then_get r r widget_db 1 Ha eq_refl).
Defined.

Lemma ids_unique_and_kept_witness :
  let r := item_request "1" widget2 in
  let st := sql.store widget_db in
  let st' := sql.store (serve PUT_item None r widget_db).1 in
  NoDup (sql.ids st)
  /\ NoDup (sql.ids st')
  /\ sql.ids st' = sql.ids st
  /\ forall n it, sql.rows st !! n = Some it ->
       exists it', sql.rows st' !! n = Some it'
                   /\ ID it' = ID it
                   /\ (strconv.Atoi (param r "id") <> inr (ID it) -> it' = it).
Proof.
  intros r st st'.
  assert (NoDup (sql.ids st)) as Hnd
    by (vm_compute; apply NoDup_singleton).
  split; [exact Hnd |].
  exact (ids_unique_and_kept PUT_item None r widget_db Hnd).
Defined.

Lemma invalid_id_is_bad_request_witness :
  let r := item_request "abc" widget2 in
  let out := serve PUT_item (Some "connection refused") r widget_db in
  (PUT_item = GET_item \/ PUT_item = PUT_item \/ PUT_item = DELETE_item)
  /\ strconv.Atoi (param r "id") = inl strconv.ErrSyntax
  /\ out.2 = error_response 400 "Invalid item ID"
  /\ sql.sent out.1 = sql.sent widget_db
  /\ sql.store out.1 = sql.store widget_db.
Proof.
  intros r out.
  assert (PUT_item = GET_item \/ PUT_item = PUT_item \/ PUT_item = DELETE_item)
    as Hrt by (right; left; reflexivity).
  assert (strconv.Atoi (param r "id") = inl strconv.ErrSyntax) as Ha
    by reflexivity.
  split; [exact Hrt |]. split; [exact Ha |].
  exact (invalid_id_is_bad_request PUT_item (Some "connection refused") r
           widget_db strconv.ErrSyntax Hrt Ha).
Defined.

(** C9, as stated, fails: the 204 response of an update has no body and
    carries [Content-Type: application/json]. *)
Lemma update_sets_content_type :
  let resp := (serve PUT_item None (item_request "1" widget2) widget_db).2 in
  http.StatusCode resp = 204
  /\ http.Body resp = []
  /\ json_content_type resp.
Proof. vm_compute. repeat split. Qed.

Lemma content_type_of_success_witness :
  let rt := DELETE_item in
  let resp := (serve rt None (item_request "1" no_body) widget_db).2 in
  success resp
  /\ (http.Body resp <> [] -> json_content_type resp)
  /\ (rt = POST_items \/ rt = GET_items \/ rt = GET_item ->
      http.StatusCode resp = 200
      /\ json_content_type resp
      /\ (finite_prices (sql.store widget_db) -> http.Body resp <> []))
  /\ (rt = DELETE_item ->
      http.StatusCode resp = 204
      /\ http.Body resp = []
      /\ http.Header resp !! "Content-Type" = None).
Proof.
  intros rt resp.
  assert (success resp) as Hok
    by (vm_compute; split; [discriminate | reflexivity]).
  split; [exact Hok |].
  exact (content_type_of_success rt None (item_request "1" no_body) widget_db
           Hok).
Defined.

(** C10, as stated, fails: 9223372036854775808 is an integer string, and
    [Atoi] reports it out of range, so get answers 400. *)
Lemma integer_out_of_range_is_refused :
  let seg := "9223372036854775808" in
  integer_string seg = true
  /\ strconv.Atoi seg = inl strconv.ErrRange
  /\ (serve GET_item None (item_request seg no_body) new_db).2
     = error_response 400 "Invalid item ID".
Proof. vm_compute. repeat split. Qed.

Lemma integer_segment_is_accepted_witness :
  let r := item_request "-5" widget2 in
  let seg := param r "id" in
  integer_string seg = true
  /\ strconv.in_int (integer_value seg) = true
  /\ (integer_value seg ∉ sql.ids (sql.store widget_db))
  /\ strconv.Atoi seg = inr (integer_value seg)
  /\ http.StatusCode (serve GET_item None r widget_db).2 = 404
  /\ http.StatusCode (serve DELETE_item None r widget_db).2 = 204
  /\ (forall item, json.Decode (http.ReqBody r) zeroItem = (item, None) ->
      http.StatusCode (serve PUT_item None r widget_db).2 = 204).
Proof.
  intros r seg.
  assert (integer_string seg = true) as Hs by reflexivity.
  assert (strconv.in_int (integer_value seg) = true) as Hin by reflexivity.
  assert (integer_value seg ∉ sql.ids (sql.store widget_db)) as Hnot
    by (vm_compute; intros H; inversion H as [| ? ? ? H']; inversion H').
  split; [exact Hs |]. split; [exact Hin |]. split; [exact Hnot |].
  exact (integer_segment_is_accepted r widget_db Hs Hin Hnot).
Defined.

(** The scenario of the spec: create, update, get, delete, get. *)
Example scenario :
  let '(db1, created) := serve POST_items None (items_request widget) new_db in
  let '(db2, updated) := serve PUT_item None (item_request "1" widget2) db1 in
  let '(db3, got) := serve GET_item None (item_request "1" no_body) db2 in
  let '(db4, deleted) := serve DELETE_item None (item_request "1" no_body) db3 in
  let '(db5, gone) := serve GET_item None (item_request "1" no_body) db4 in
  created = json_response (item_json (mkItem 1 "Widget" "A widget" price_9_99))
  /\ http.StatusCode updated = 204
  /\ got = json_response (item_json (mkItem 1 "Widget2" "A widget" price_19_99))
  /\ http.StatusCode deleted = 204
  /\ http.StatusCode gone = 404.
Proof. vm_compute. repeat split. Qed.

(** ** Beyond the contract: errors and edges of the handlers *)



Lemma updateItem_refused fault r db id item e :
  strconv.Atoi (param r "id") = inr id ->
  json.Decode (http.ReqBody r) zeroItem = (item, Some e) ->
  serve PUT_item fault r db
  = (db, error_response http.StatusBadRequest (ErrorText e)).
Proof.
  intros Ha Hd. open_handler. rewrite Ha, Hd.
  rewrite finish_Error by reflexivity. reflexivity.
Qed.


(** X3: the status of a response is one of those its handler writes:
    200, 400 or 500 for create, 200 or 500 for list, 200, 400, 404 or 500
    for get, 204, 400 or 500 for update and delete. So update and delete
    never answer 404, and a success is 200 exactly on the routes with a
    body. *)
Theorem status_is_one_of_the_handler (rt : Route) (fault : sql.Fault)
    (r : http.Request) (db : sql.DB) :
  http.StatusCode (serve rt fault r db).2 ∈ statuses rt.
Proof.
  destruct rt; open_handler; unfold sql.send; split_cases; cbn [snd];
    rewrite ?finish_Error by reflexivity;
    rewrite ?finish_NoContent, ?finish_NoContent_json;
    try match goal with
        | |- context [http.Encode ?v _] =>
            destruct v; rewrite ?finish_Encode, ?finish_Encode_nothing
        end;
    cbn [http.StatusCode error_response json_response statuses];
    unfold http.StatusOK, http.StatusNoContent, http.StatusBadRequest,
      http.StatusNotFound, http.StatusInternalServerError;
    set_solver.
Qed.

(** X4: every response with a status of 400 or more is the plain text of
    one message: [Content-Type: text/plain; charset=utf-8],
    [X-Content-Type-Options: nosniff], and the message as only line of the
    body; no error is reported as JSON. *)
Theorem errors_are_plain_text (rt : Route) (fault : sql.Fault)
    (r : http.Request) (db : sql.DB) :
  let resp := (serve rt fault r db).2 in
  400 <= http.StatusCode resp ->
  exists msg,
    http.Body resp = [http.TextLine msg]
    /\ http.Header resp !! "Content-Type" = Some "text/plain; charset=utf-8"
    /\ http.Header resp !! "X-Content-Type-Options" = Some "nosniff"
    /\ ~ json_content_type resp.
Proof.
  intros resp Hc. pose proof (serve_shape rt fault r db) as Hsh.
  fold resp in Hsh. clearbody resp.
  destruct Hsh as [rt code msg _ | | | |]; simpl in Hc;
    unfold http.StatusOK, http.StatusNoContent in *; try lia.
  exists msg. unfold json_content_type. simpl. repeat split. discriminate.
Qed.

(** X5: a request sends at most one statement, of the kind of its route,
    and the two reads leave the store as it was whatever the connection
    does. *)
Theorem one_statement_per_request (rt : Route) (fault : sql.Fault)
    (r : http.Request) (db : sql.DB) :
  let out := serve rt fault r db in
  (sql.sent out.1 = sql.sent db
   \/ exists q, sql.sent out.1 = sql.sent db ++ [q] /\ route_of q = rt)
  /\ (rt = GET_items \/ rt = GET_item -> sql.store out.1 = sql.store db).
Proof.
  intros out. subst out. rewrite serve_db.
  destruct (statement_of rt r) as [q |] eqn:Hq.
  - assert (route_of q = rt) as Hrt.
    { destruct rt; unfold statement_of in Hq; split_cases. }
    split.
    + right. exists q. split; [apply send_sent | assumption].
    + intros Hread. destruct (send_store fault q db) as [H | H];
        [assumption |].
      rewrite H. destruct Hread as [-> | ->]; destruct q; try discriminate;
        reflexivity.
  - split; [left; reflexivity | reflexivity].
Qed.

(** ** Beyond the contract: how the operations compose *)

Section Composition.

Implicit Types (rt : Route) (fault : sql.Fault) (r : http.Request)
  (db : sql.DB) (it item : Item) (id : Z) (l : list Item).

Lemma filter_update_other name description price id id' l :
  id' <> id ->
  filter (λ it, ID it = id') (sql.set_columns name description price id <$> l)
  = filter (λ it, ID it = id') l.
Proof.
  intros Hne. induction l as [| a l IH]; [reflexivity |].
  rewrite fmap_cons. destruct (decide (ID a = id')) as [Ha | Ha].
  - rewrite set_columns_other by congruence.
    rewrite !filter_cons_True by assumption. rewrite IH. reflexivity.
  - rewrite (filter_cons_False _ a) by assumption.
    rewrite filter_cons_False by (rewrite set_columns_ID; assumption).
    assumption.
Qed.

Lemma filter_delete_other id id' l :
  id' <> id ->
  filter (λ it, ID it = id') (filter (λ it, ID it ≠ id) l)
  = filter (λ it, ID it = id') l.
Proof.
  intros Hne. induction l as [| a l IH]; [reflexivity |].
  destruct (decide (ID a = id')) as [Ha | Ha].
  - rewrite (filter_cons_True (λ it, ID it ≠ id)) by congruence.
    rewrite !filter_cons_True by assumption. rewrite IH. reflexivity.
  - rewrite (filter_cons_False (λ it, ID it = id') a) by assumption.
    destruct (decide (ID a = id)) as [Hb | Hb].
    + rewrite (filter_cons_False (λ it, ID it ≠ id)) by tauto. assumption.
    + rewrite (filter_cons_True (λ it, ID it ≠ id)) by assumption.
      rewrite filter_cons_False by assumption. assumption.
Qed.

Lemma filter_delete_absent id l :
  id ∉ ID <$> l -> filter (λ it, ID it ≠ id) l = l.
Proof.
  induction l as [| a l IH]; intros Hnot; [reflexivity |].
  rewrite fmap_cons, not_elem_of_cons in Hnot. destruct Hnot as [Hne Hnot].
  rewrite filter_cons_True by congruence. rewrite IH by assumption.
  reflexivity.
Qed.

Lemma filter_delete_twice id l :
  filter (λ it, ID it ≠ id) (filter (λ it, ID it ≠ id) l)
  = filter (λ it, ID it ≠ id) l.
Proof. apply filter_delete_absent, delete_gone. Qed.

Lemma set_columns_twice name description price id it :
  sql.set_columns name description price id
    (sql.set_columns name description price id it)
  = sql.set_columns name description price id it.
Proof.
  unfold sql.set_columns. destruct (decide (ID it = id)) as [H | H]; simpl.
  - destruct (decide (ID it = id)); [reflexivity | contradiction].
  - destruct (decide (ID it = id)); [contradiction | reflexivity].
Qed.

(** What a get answers depends on the rows with its id only. *)
Lemma getItem_same_rows r db db' id :
  strconv.Atoi (param r "id") = inr id ->
  filter (λ it, ID it = id) (sql.rows (sql.store db))
  = filter (λ it, ID it = id) (sql.rows (sql.store db')) ->
  (serve GET_item None r db).2 = (serve GET_item None r db').2.
Proof.
  intros Ha Hf. open_handler. rewrite Ha. unfold sql.send. cbn [sql.exec].
  rewrite Hf. split_cases.
Qed.

End Composition.

(** X6: after an update of an item of the store, a get with the same id
    answers 200 with the item under its old id and with the name,
    description and price of the update's body. *)
Theorem update_then_get (r r' : http.Request) (db : sql.DB) (id : Z)
    (item : Item) :
  strconv.Atoi (param r "id") = inr id ->
  param r' "id" = param r "id" ->
  json.Decode (http.ReqBody r) zeroItem = (item, None) ->
  NoDup (sql.ids (sql.store db)) ->
  id ∈ sql.ids (sql.store db) ->
  let updated := serve PUT_item None r db in
  http.StatusCode updated.2 = 204
  /\ (serve GET_item None r' updated.1).2
     = json_response (item_json (stored id item)).
Proof.
  intros Ha Hr Hd Hnd Hin updated. subst updated.
  pose proof (Decode_price_finite (http.ReqBody r) zeroItem eq_refl) as Hfin.
  rewrite Hd in Hfin. cbn [fst] in Hfin.
  rewrite (updateItem_done r db id item) by assumption. cbn [fst snd].
  split; [reflexivity |].
  apply list_elem_of_fmap in Hin as (old & Hid & Hold).
  rewrite (getItem_found r' _ (stored id item)).
  - reflexivity.
  - rewrite Hr. exact Ha.
  - unfold sql.ids. cbn [sql.store sql.rows]. rewrite update_ids. assumption.
  - cbn [sql.store sql.rows]. apply list_elem_of_fmap. exists old.
    split; [| assumption]. unfold sql.set_columns, stored.
    destruct (decide (ID old = id)); [congruence | congruence].
  - assumption.
Qed.

(** X7: an update or a delete, failed or not, changes nothing for the
    other ids: a get with another id answers the same after it as before
    it. *)
Theorem other_ids_are_untouched (rt : Route) (fault : sql.Fault)
    (r r' : http.Request) (db : sql.DB) (id id' : Z) :
  rt = PUT_item \/ rt = DELETE_item ->
  strconv.Atoi (param r "id") = inr id ->
  strconv.Atoi (param r' "id") = inr id' ->
  id' <> id ->
  (serve GET_item None r' (serve rt fault r db).1).2
  = (serve GET_item None r' db).2.
Proof.
  intros Hrt Ha Ha' Hne. apply (getItem_same_rows r' _ db id' Ha').
  destruct (serve_store rt fault r db) as [-> | (q & Hq & ->)];
    [reflexivity |].
  destruct Hrt as [-> | ->]; unfold statement_of in Hq; rewrite Ha in Hq.
  - destruct (json.Decode (http.ReqBody r) zeroItem) as [item [e |]];
      [discriminate |].
    injection Hq as <-. cbn [sql.exec fst sql.rows].
    apply filter_update_other. assumption.
  - injection Hq as <-. cbn [sql.exec fst sql.rows].
    apply filter_delete_other. assumption.
Qed.

(** X8: in a well-formed store with an id left in the sequence, a create
    with any body that decodes, fields missing or not, answers 200 with the
    decoded fields under a new id, and a list after it answers the array of
    the old items followed by the new one. *)
Theorem create_then_list (r r' : http.Request) (db : sql.DB) (item : Item) :
  json.Decode (http.ReqBody r) zeroItem = (item, None) ->
  wf (sql.store db) ->
  sql.next_id (sql.store db) <= strconv.maxInt ->
  let created := serve POST_items None r db in
  let new := stored (sql.next_id (sql.store db)) item in
  created.2 = json_response (item_json new)
  /\ (serve GET_items None r' created.1).2
     = json_response
         (json.Array ((item_json <$> sql.rows (sql.store db))
                      ++ [item_json new])).
Proof.
  intros Hd Hwf Hmax created new.
  assert (sql.next_id (sql.store db) ∉ sql.ids (sql.store db)) as Hfresh.
  { intros Hin. apply list_elem_of_fmap in Hin as (it & Heq & Hit).
    pose proof (wf_below _ Hwf) as Hb. rewrite Forall_forall in Hb.
    specialize (Hb it Hit). lia. }
  pose proof (serve_wf POST_items None r db Hwf) as Hwf'.
  pose proof (createItem_created r db item Hd Hmax Hfresh) as Hc.
  cbn zeta in Hc. fold created in Hc, Hwf'. subst new. unfold stored.
  rewrite Hc in *. cbn [fst snd] in *. split; [reflexivity |].
  rewrite getItems_all by apply (wf_finite _ Hwf').
  cbn [fst snd sql.store sql.rows]. rewrite fmap_app. reflexivity.
Qed.

(** X9: a delete with an id that no item of the store has answers 204
    and leaves the store as it was. *)
Theorem delete_of_absent_id (r : http.Request) (db : sql.DB) (id : Z) :
  strconv.Atoi (param r "id") = inr id ->
  id ∉ sql.ids (sql.store db) ->
  let out := serve DELETE_item None r db in
  http.StatusCode out.2 = 204
  /\ http.Body out.2 = []
  /\ sql.store out.1 = sql.store db.
Proof.
  intros Ha Hnot out. subst out.
  rewrite (deleteItem_done r db id Ha). cbn [fst snd sql.store].
  rewrite filter_delete_absent by assumption.
  destruct db as [[rows next] sent]. auto.
Qed.

(** X10: update and delete are idempotent: the same request served a
    second time gets the same response and leaves the store as the first
    left it. *)
Theorem update_and_delete_are_idempotent (rt : Route) (r : http.Request)
    (db : sql.DB) :
  rt = PUT_item \/ rt = DELETE_item ->
  let once := serve rt None r db in
  let twice := serve rt None r once.1 in
  twice.2 = once.2 /\ sql.store twice.1 = sql.store once.1.
Proof.
  intros Hrt once twice. subst once twice.
  destruct (strconv.Atoi (param r "id")) as [e | id] eqn:Ha.
  { assert (rt = GET_item \/ rt = PUT_item \/ rt = DELETE_item) as Hrt'
      by tauto.
    rewrite !(invalid_id rt None r _ e Hrt' Ha). auto. }
  destruct Hrt as [-> | ->].
  - destruct (json.Decode (http.ReqBody r) zeroItem) as [item [e |]] eqn:Hd.
    + rewrite !(updateItem_refused None r _ id item e Ha Hd). auto.
    + rewrite !(updateItem_done r _ id item Ha Hd).
      cbn [fst snd sql.store sql.rows sql.next_id]. split; [reflexivity |].
      f_equal. rewrite <- list_fmap_compose. apply list_fmap_ext.
      intros i x _. apply set_columns_twice.
  - rewrite !(deleteItem_done r _ id Ha).
    cbn [fst snd sql.store sql.rows sql.next_id]. split; [reflexivity |].
    f_equal. apply filter_delete_twice.
Qed.

(** X11: in a well-formed store, a create followed by a delete of the id
    it returned leaves the rows as they were before the create; only the
    sequence has moved on. *)
Theorem create_then_delete (r r' : http.Request) (db : sql.DB) (item : Item) :
  json.Decode (http.ReqBody r) zeroItem = (item, None) ->
  wf (sql.store db) ->
  sql.next_id (sql.store db) <= strconv.maxInt ->
  strconv.Atoi (param r' "id") = inr (sql.next_id (sql.store db)) ->
  let created := serve POST_items None r db in
  let deleted := serve DELETE_item None r' created.1 in
  returned_id created.2 = Some (sql.next_id (sql.store db))
  /\ http.StatusCode deleted.2 = 204
  /\ sql.rows (sql.store deleted.1) = sql.rows (sql.store db)
  /\ sql.next_id (sql.store deleted.1) = sql.next_id (sql.store db) + 1.
Proof.
  intros Hd Hwf Hmax Ha created deleted.
  assert (sql.next_id (sql.store db) ∉ sql.ids (sql.store db)) as Hfresh.
  { intros Hin. apply list_elem_of_fmap in Hin as (it & Heq & Hit).
    pose proof (wf_below _ Hwf) as Hb. rewrite Forall_forall in Hb.
    specialize (Hb it Hit). lia. }
  pose proof (createItem_created r db item Hd Hmax Hfresh) as Hc.
  cbn zeta in Hc. subst deleted. fold created in Hc. rewrite Hc.
  cbn [fst snd]. rewrite (deleteItem_done r' _ _ Ha).
  cbn [fst snd sql.store sql.rows sql.next_id].
  split; [| split; [reflexivity | split; [| reflexivity]]].
  - unfold returned_id, json_response, item_json. cbn.
    rewrite int_value_int_lit. reflexivity.
  - rewrite filter_app, filter_delete_absent by assumption.
    rewrite filter_cons_False by (cbn; tauto). rewrite filter_nil.
    apply app_nil_r.
Qed.

(** ** Beyond the contract: what the body and the path may carry *)

(** X12: the id a client puts in the body has no effect: two creates, or
    two updates on the same path, whose bodies decode to the same name,
    description and price get the same response and leave the same handle,
    whatever ids the bodies carry. *)
Theorem body_id_is_ignored (rt : Route) (fault : sql.Fault)
    (r1 r2 : http.Request) (db : sql.DB) (item1 item2 : Item) :
  rt = POST_items \/ rt = PUT_item ->
  http.Vars r1 = http.Vars r2 ->
  json.Decode (http.ReqBody r1) zeroItem = (item1, None) ->
  json.Decode (http.ReqBody r2) zeroItem = (item2, None) ->
  Name item1 = Name item2 ->
  Description item1 = Description item2 ->
  Price item1 = Price item2 ->
  serve rt fault r1 db = serve rt fault r2 db.
Proof.
  intros Hrt Hv Hd1 Hd2 Hn Hdesc Hp.
  destruct item1 as [i1 n1 d1 p1], item2 as [i2 n2 d2 p2].
  cbn [Name Description Price] in *. subst n2 d2 p2.
  destruct Hrt as [-> | ->]; open_handler.
  - rewrite Hd1, Hd2. cbn [Name Description Price].
    destruct (sql.send fault (sql.INSERT n1 d1 p1) db)
      as [db' [[| row rows] | e]]; try reflexivity.
    destruct row; reflexivity.
  - unfold param. rewrite Hv, Hd1, Hd2. reflexivity.
Qed.

Lemma store_keeps_Name fld v it :
  fld <> json.FName -> Name (json.store fld v it).1 = Name it.
Proof.
  intros Hf. destruct v as [| b | n | s | l | ms], fld; simpl;
    try reflexivity; try contradiction.
  - destruct (json.ParseInt n); reflexivity.
  - destruct (json.ParseFloat n); reflexivity.
Qed.

Lemma store_keeps_Description fld v it :
  fld <> json.FDescription ->
  Description (json.store fld v it).1 = Description it.
Proof.
  intros Hf. destruct v as [| b | n | s | l | ms], fld; simpl;
    try reflexivity; try contradiction.
  - destruct (json.ParseInt n); reflexivity.
  - destruct (json.ParseFloat n); reflexivity.
Qed.

Lemma store_keeps_Price fld v it :
  fld <> json.FPrice -> Price (json.store fld v it).1 = Price it.
Proof.
  intros Hf. destruct v as [| b | n | s | l | ms], fld; simpl;
    try reflexivity; try contradiction.
  destruct (json.ParseInt n); reflexivity.
Qed.

Lemma object_keeps (get : Item -> string + float64) (fld : json.Field) :
  (forall fld' v it, fld' <> fld -> get (json.store fld' v it).1 = get it) ->
  forall members it saved,
    Forall (λ m, json.field_of_key m.1 <> Some fld) members ->
    get (json.object members it saved).1 = get it.
Proof.
  intros Hkeep members. induction members as [| [key v] ms IH];
    intros it saved Hall; simpl; [reflexivity |].
  apply Forall_cons in Hall as [Hm Hall]. simpl in Hm.
  destruct (json.field_of_key key) as [fld' |]; [| auto].
  specialize (Hkeep fld' v it). destruct (json.store fld' v it) as [it' e].
  rewrite IH by assumption. apply Hkeep. congruence.
Qed.

(** X13: a field that no member of the body's object selects keeps the
    zero value of [var item Item]: the INSERT of a create carries the empty
    string for a missing name or description and 0 for a missing price. *)
Theorem missing_fields_are_zero (r : http.Request)
    (members : list (string * json.value)) (name description : string)
    (price : float64) :
  http.ReqBody r = json.FirstValue (json.Object members) ->
  statement_of POST_items r = Some (sql.INSERT name description price) ->
  (Forall (λ m, json.field_of_key m.1 <> Some json.FName) members ->
   name = "")
  /\ (Forall (λ m, json.field_of_key m.1 <> Some json.FDescription) members ->
      description = "")
  /\ (Forall (λ m, json.field_of_key m.1 <> Some json.FPrice) members ->
      price = PrimFloat.zero).
Proof.
  intros Hb Hq. unfold statement_of in Hq. rewrite Hb in Hq. simpl in Hq.
  destruct (json.object members zeroItem None) as [item [e |]] eqn:Hd;
    [discriminate |].
  injection Hq as <- <- <-.
  assert (item = (json.object members zeroItem None).1) as ->
    by (rewrite Hd; reflexivity).
  repeat split; intros Hall.
  - pose proof (object_keeps (λ it, inl (Name it)) json.FName) as H.
    simpl in H. specialize (H (λ fld' v it Hne,
      f_equal inl (store_keeps_Name fld' v it Hne)) members zeroItem None Hall).
    injection H as H. exact H.
  - pose proof (object_keeps (λ it, inl (Description it)) json.FDescription)
      as H.
    simpl in H. specialize (H (λ fld' v it Hne,
      f_equal inl (store_keeps_Description fld' v it Hne))
      members zeroItem None Hall).
    injection H as H. exact H.
  - pose proof (object_keeps (λ it, inr (Price it)) json.FPrice) as H.
    simpl in H. specialize (H (λ fld' v it Hne,
      f_equal inr (store_keeps_Price fld' v it Hne)) members zeroItem None Hall).
    injection H as H. exact H.
Qed.

(** X14: two integer strings with the same value in the range of [int]
    address the same item: get, update and delete answer the same and
    leave the same handle for "7", "+7" and "007". *)
Theorem same_id_same_item (rt : Route) (fault : sql.Fault)
    (r1 r2 : http.Request) (db : sql.DB) :
  rt = GET_item \/ rt = PUT_item \/ rt = DELETE_item ->
  integer_string (param r1 "id") = true ->
  integer_string (param r2 "id") = true ->
  integer_value (param r1 "id") = integer_value (param r2 "id") ->
  strconv.in_int (integer_value (param r1 "id")) = true ->
  http.ReqBody r1 = http.ReqBody r2 ->
  serve rt fault r1 db = serve rt fault r2 db.
Proof.
  intros Hrt Hs1 Hs2 Hv Hin Hb.
  pose proof (Atoi_integer_string _ Hs1 Hin) as H1.
  rewrite Hv in Hin. pose proof (Atoi_integer_string _ Hs2 Hin) as H2.
  rewrite <- Hv in H2.
  destruct Hrt as [-> | [-> | ->]]; open_handler; rewrite H1, H2, ?Hb;
    reflexivity.
Qed.

(** ** Beyond the contract: what the encoder and the loop leave unsaid *)


Lemma marshal_Item_not_finite it :
  is_finite (Price it) = false -> json.marshal_Item it = None.
Proof.
  intros H. unfold json.marshal_Item, json.marshal_float. rewrite H.
  reflexivity.
Qed.

Lemma marshal_list_not_finite l it :
  it ∈ l -> is_finite (Price it) = false -> json.marshal_list l = None.
Proof.
  intros Hin Hnf. induction l as [| a l IH]; [inversion Hin |].
  simpl. apply elem_of_cons in Hin as [<- | Hin].
  - rewrite marshal_Item_not_finite by assumption. reflexivity.
  - rewrite IH by assumption. destruct (json.marshal_Item a); reflexivity.
Qed.

(** X15: the handlers drop the error of [Encode]: when a row of the store
    has a price that is not a finite number (NaN, an infinity), the get of
    that row and the list answer 200 with [Content-Type: application/json]
    and an empty body, not an error. *)
Theorem unencodable_price_is_an_empty_200 (r : http.Request) (db : sql.DB)
    (it : Item) :
  strconv.Atoi (param r "id") = inr (ID it) ->
  NoDup (sql.ids (sql.store db)) ->
  it ∈ sql.rows (sql.store db) ->
  is_finite (Price it) = false ->
  (serve GET_item None r db).2 = http.mkResponse 200 json_headers []
  /\ (serve GET_items None r db).2 = http.mkResponse 200 json_headers [].
Proof.
  intros Ha Hnd Hin Hnf. split.
  - open_handler. rewrite Ha. unfold sql.send. cbn [sql.exec].
    rewrite filter_present by assumption.
    cbn [fmap list_fmap sql.row_of sql.Scan4 snd].
    destruct it as [i n d p]. cbn [ID Name Description Price] in *.
    rewrite marshal_Item_not_finite by assumption.
    rewrite finish_Encode_nothing. reflexivity.
  - open_handler. unfold sql.send. cbn [sql.exec].
    rewrite scan_rows_all. cbn [app json.marshal_Items snd].
    rewrite (marshal_list_not_finite _ it) by assumption.
    rewrite finish_Encode_nothing. reflexivity.
Qed.


(** ** Beyond the contract: runs of requests *)

Lemma serve_sent_finite rt fault r db :
  Forall finite_args (sql.sent db) ->
  Forall finite_args (sql.sent (serve rt fault r db).1)
  /\ (length (sql.sent (serve rt fault r db).1) <= S (length (sql.sent db)))%nat.
Proof.
  intros Hfin. rewrite serve_db.
  destruct (statement_of rt r) as [q |] eqn:Hq.
  - rewrite send_sent. split.
    + apply Forall_app. split; [assumption |].
      constructor; [| constructor]. eapply statement_of_finite. eassumption.
    + rewrite length_app. simpl. lia.
  - split; [assumption | lia].
Qed.

(** X17: a run of requests keeps a well-formed store well-formed (ids
    distinct, positive and below the sequence, prices finite), sends at most
    one statement for each request, and never sends a price that is NaN or
    an infinity: [Decode] lets none through. *)
Theorem runs_keep_the_invariants (calls : list Call) (db : sql.DB) :
  wf (sql.store db) ->
  Forall finite_args (sql.sent db) ->
  let db' := (serve_all calls db).1 in
  wf (sql.store db')
  /\ Forall finite_args (sql.sent db')
  /\ (length (sql.sent db') <= length (sql.sent db) + length calls)%nat.
Proof.
  intros Hwf Hfin db'. subst db'. split; [apply serve_all_wf; assumption |].
  clear Hwf. revert db Hfin.
  induction calls as [| [[rt fault] r] calls IH]; intros db Hfin; simpl.
  - split; [assumption | lia].
  - destruct (serve_sent_finite rt fault r db Hfin) as [H1 H2].
    destruct (serve rt fault r db) as [db1 resp]. cbn [fst] in *.
    specialize (IH db1 H1). destruct (serve_all calls db1) as [db2 resps].
    cbn [fst] in *. destruct IH as [IH1 IH2]. split; [assumption | lia].
Qed.

(** ** Beyond the contract: the route table *)

Section Routing.

Import mux.

Lemma Match_found regs meth path found :
  Match regs meth path = Some found ->
  exists reg, reg ∈ regs /\ matches reg meth path = Some found.
Proof.
  induction regs as [| reg regs IH]; simpl; [discriminate |].
  destruct (matches reg meth path) as [f |] eqn:Hm.
  - intros [= <-]. exists reg. split; [left | assumption].
  - intros H. destruct (IH H) as (reg' & Hin & Hreg').
    exists reg'. split; [right; assumption | assumption].
Qed.

Lemma Match_none regs meth path :
  Match regs meth path = None <->
  forall reg, reg ∈ regs -> matches reg meth path = None.
Proof.
  induction regs as [| reg regs IH]; simpl.
  - split; [intros _ reg H; inversion H | reflexivity].
  - destruct (matches reg meth path) as [f |] eqn:Hm.
    + split; [discriminate |]. intros H.
      specialize (H reg (list_elem_of_here _ _)). congruence.
    + rewrite IH. split.
      * intros H reg' Hin. apply elem_of_cons in Hin as [-> | Hin]; auto.
      * intros H reg' Hin. apply H. right. assumption.
Qed.

Lemma templates_disjoint path v1 v2 :
  match_path Items path = Some v1 -> match_path Item_id path = Some v2 -> False.
Proof.
  unfold match_path. destruct (String.eqb_spec path "/items") as [-> |];
    [| discriminate].
  intros _. simpl. discriminate.
Qed.

(** No request matches two routes of the table. *)
Lemma routes_unambiguous reg1 reg2 meth path f1 f2 :
  reg1 ∈ routes -> reg2 ∈ routes ->
  matches reg1 meth path = Some f1 -> matches reg2 meth path = Some f2 ->
  f1 = f2.
Proof.
  unfold routes, matches. intros H1 H2.
  rewrite !elem_of_cons, elem_of_nil in H1, H2.
  destruct H1 as [-> | [-> | [-> | [-> | [-> | []]]]]];
    destruct H2 as [-> | [-> | [-> | [-> | [-> | []]]]]];
    cbn [template method target];
    destruct (match_path Items path) as [v1 |] eqn:Hp1;
    destruct (match_path Item_id path) as [v2 |] eqn:Hp2;
    try discriminate;
    try (exfalso; eapply templates_disjoint; eassumption);
    repeat match goal with
           | |- context [String.eqb ?a meth] =>
               destruct (String.eqb_spec a meth); try subst meth
           end;
    try discriminate; congruence.
Qed.

End Routing.

(** X18: no request matches two routes of [main]'s table, so the order of
    the five registrations does not matter: a router with the same routes
    in any other order finds the same handler and the same variables. *)
Theorem route_order_does_not_matter (regs : list mux.Registration)
    (meth path : string) :
  regs ≡ₚ mux.routes ->
  mux.Match regs meth path = mux.Match mux.routes meth path.
Proof.
  intros Hperm.
  destruct (mux.Match mux.routes meth path) as [f |] eqn:Hm.
  - destruct (Match_found _ _ _ _ Hm) as (reg & Hin & Hreg).
    destruct (mux.Match regs meth path) as [f' |] eqn:Hm'.
    + destruct (Match_found _ _ _ _ Hm') as (reg' & Hin' & Hreg').
      rewrite Hperm in Hin'. f_equal.
      exact (routes_unambiguous reg' reg meth path f' f Hin' Hin Hreg' Hreg).
    + rewrite Match_none in Hm'. rewrite <- Hperm in Hin.
      specialize (Hm' reg Hin). congruence.
  - rewrite Match_none in Hm. apply Match_none. intros reg Hin.
    apply Hm. rewrite <- Hperm. assumption.
Qed.

Section Segments.

Import strconv mux.

Lemma strip_items_prefix seg :
  strip_prefix "/items/" ("/items/" +:+ seg) = Some seg.
Proof. reflexivity. Qed.

Lemma match_item_path seg :
  seg <> "" -> no_slash seg = true ->
  match_path Item_id ("/items/" +:+ seg) = Some {[ "id" := seg ]}
  /\ match_path Items ("/items/" +:+ seg) = None.
Proof.
  intros Hne Hns. split; [| reflexivity].
  unfold match_path. rewrite strip_items_prefix, Hns.
  destruct (String.eqb_spec seg ""); [contradiction | reflexivity].
Qed.

Lemma strip_prefix_Some prefix s rest :
  strip_prefix prefix s = Some rest -> s = prefix +:+ rest.
Proof.
  revert s. induction prefix as [| a prefix IH]; intros s; simpl.
  - intros [= ->]. reflexivity.
  - destruct s as [| b s]; [discriminate |].
    destruct (Ascii.eqb_spec a b) as [-> |]; [| discriminate].
    intros H. rewrite (IH s H). reflexivity.
Qed.

Lemma digit_char_no_slash d acc :
  0 <= d <= 9 -> no_slash acc = true ->
  no_slash (String (ascii_of_N (Z.to_N (48 + d))) acc) = true.
Proof.
  intros Hd Hacc.
  assert (d = 0 \/ d = 1 \/ d = 2 \/ d = 3 \/ d = 4 \/ d = 5 \/ d = 6
          \/ d = 7 \/ d = 8 \/ d = 9) as Hcases by lia.
  repeat (destruct Hcases as [-> | Hcases]; [exact Hacc |]).
  subst d. exact Hacc.
Qed.

Lemma utoa_no_slash fuel : forall n acc,
  0 <= n -> no_slash acc = true -> no_slash (utoa fuel n acc) = true.
Proof.
  induction fuel as [| k IH]; intros n acc Hn Hacc; cbn [utoa];
    [assumption |].
  assert (0 <= n mod 10 < 10) as Hm by (apply Z.mod_pos_bound; lia).
  destruct (n <? 10).
  - apply digit_char_no_slash; [lia | assumption].
  - apply IH; [apply Z.div_pos; lia |].
    apply digit_char_no_slash; [lia | assumption].
Qed.

(** What [Itoa] writes can stand as a path segment. *)
Lemma Itoa_segment z : Itoa z <> "" /\ no_slash (Itoa z) = true.
Proof.
  unfold Itoa. destruct (Z.ltb_spec z 0).
  - split; [discriminate |].
    change (no_slash (String "-" (utoa 20 (- z) "")))
      with (no_slash (utoa 20 (- z) "")).
    apply utoa_no_slash; [lia | reflexivity].
  - destruct (utoa_unsigned 19 z "") as (ch & rest & Hu & _ & _); [lia |].
    split; [rewrite Hu; discriminate |].
    apply utoa_no_slash; [lia | reflexivity].
Qed.

End Segments.

(** X19: the id a handler reads from the route variables is the last
    segment of the path: when the router hands a request to get, update or
    delete, the path is "/items/" followed by a segment that is not empty
    and has no slash, and [params["id"]] is that segment, never the empty
    string of a missing key. *)
Theorem id_is_the_last_segment (meth path : string) (rt : Route)
    (vars : gmap string string) (b : json.Body) :
  mux.Match mux.routes meth path = Some (rt, vars) ->
  rt = GET_item \/ rt = PUT_item \/ rt = DELETE_item ->
  let seg := param (http.mkRequest vars b) "id" in
  path = "/items/" +:+ seg
  /\ seg <> ""
  /\ mux.no_slash seg = true
  /\ meth = method_of rt.
Proof.
  intros Hm Hrt seg. subst seg.
  apply Match_found in Hm as (reg & Hin & Hreg).
  unfold mux.routes in Hin. rewrite !elem_of_cons, elem_of_nil in Hin.
  unfold mux.matches in Hreg.
  destruct Hin as [-> | [-> | [-> | [-> | [-> | []]]]]];
    cbn [mux.template mux.method mux.target] in Hreg;
    (destruct (mux.match_path _ path) as [v |] eqn:Hp; [| discriminate]);
    match type of Hreg with
    | (if String.eqb ?a meth then _ else _) = _ =>
        destruct (String.eqb_spec a meth); [subst meth | discriminate]
    end;
    injection Hreg as <- <-;
    try (destruct Hrt as [? | [? | ?]]; discriminate);
    unfold mux.match_path in Hp;
    (destruct (mux.strip_prefix "/items/" path) as [s |] eqn:Hs;
       [| discriminate]);
    apply strip_prefix_Some in Hs;
    (destruct (String.eqb_spec s "") as [| Hne]; [discriminate |]);
    (destruct (mux.no_slash s) eqn:Hns; [| discriminate]);
    cbn [negb andb] in Hp; injection Hp as <-;
    unfold param; cbn [http.Vars]; rewrite lookup_singleton_eq;
    cbn [default]; auto.
Qed.

(** X20: every id has its URL: for an id in the range of [int], the
    router hands GET, PUT and DELETE on "/items/" followed by the decimal
    digits of the id to the handler of that method, and the handler parses
    the id back from its route variables. *)
Theorem every_id_has_a_path (id : Z) (rt : Route) (b : json.Body) :
  strconv.in_int id = true ->
  rt = GET_item \/ rt = PUT_item \/ rt = DELETE_item ->
  exists vars,
    mux.Match mux.routes (method_of rt) ("/items/" +:+ strconv.Itoa id)
    = Some (rt, vars)
    /\ strconv.Atoi (param (http.mkRequest vars b) "id") = inr id.
Proof.
  intros Hin Hrt. exists {[ "id" := strconv.Itoa id ]}.
  destruct (Itoa_segment id) as [Hne Hns].
  destruct (match_item_path (strconv.Itoa id) Hne Hns) as [Hp Hq].
  split.
  - unfold mux.routes, mux.Match, mux.matches.
    cbn [mux.template mux.method mux.target]. rewrite Hp, Hq.
    destruct Hrt as [-> | [-> | ->]]; reflexivity.
  - unfold param. cbn [http.Vars]. rewrite lookup_singleton_eq.
    cbn [default]. apply Atoi_Itoa. assumption.
Qed.

(** X21: a request that is answered with an error changes no row: after
    any response with a status of 400 or more the rows of the store are
    those before the request. *)
Theorem errors_change_no_row (rt : Route) (fault : sql.Fault)
    (r : http.Request) (db : sql.DB) :
  let out := serve rt fault r db in
  400 <= http.StatusCode out.2 ->
  sql.rows (sql.store out.1) = sql.rows (sql.store db).
Proof.
  intros out. subst out.
  destruct rt; open_handler; unfold sql.send;
    destruct fault as [msg |]; cbn [sql.exec];
    repeat match goal with
           | |- context [decide ?P] => destruct (decide P)
           | |- context [strconv.Atoi ?s] => destruct (strconv.Atoi s)
           | |- context [json.Decode ?b ?i] =>
               destruct (json.Decode b i) as [? [? |]]
           end;
    cbn [fst snd sql.store sql.rows sql.Row_Scan sql.Scan1];
    try reflexivity;
    rewrite ?finish_NoContent, ?finish_NoContent_json;
    try match goal with
        | |- context [http.Encode ?v _] =>
            destruct v; rewrite ?finish_Encode, ?finish_Encode_nothing
        end;
    cbn [http.StatusCode json_response];
    unfold http.StatusOK, http.StatusNoContent; try lia.
  all: split_cases.
Qed.

(** ** Beyond the contract, on sample requests *)

Lemma wf_widget_db : wf (sql.store widget_db).
Proof. apply (serve_wf POST_items None _ new_db), wf_empty. Qed.



Lemma errors_are_plain_text_witness :
  let resp := (serve GET_item None (item_request "abc" no_body) widget_db).2 in
  400 <= http.StatusCode resp
  /\ exists msg,
       http.Body resp = [http.TextLine msg]
       /\ http.Header resp !! "Content-Type" = Some "text/plain; charset=utf-8"
       /\ http.Header resp !! "X-Content-Type-Options" = Some "nosniff"
       /\ ~ json_content_type resp.
Proof.
  intros resp.
  assert (400 <= http.StatusCode resp) as Hc by (vm_compute; discriminate).
  split; [exact Hc |].
  exact (errors_are_plain_text GET_item None (item_request "abc" no_body)
           widget_db Hc).
Defined.

Lemma one_statement_per_request_witness :
  let out := serve GET_item (Some "timeout") (item_request "1" no_body)
               widget_db in
  (GET_item = GET_items \/ GET_item = GET_item)
  /\ sql.store out.1 = sql.store widget_db.
Proof.
  intros out.
  assert (GET_item = GET_items \/ GET_item = GET_item) as Hrt
    by (right; reflexivity).
  split; [exact Hrt |].
  exact (proj2 (one_statement_per_request GET_item (Some "timeout")
                  (item_request "1" no_body) widget_db) Hrt).
Defined.

Lemma update_then_get_witness :
  let r := item_request "1" widget2 in
  let r' := item_request "1" no_body in
  let updated := serve PUT_item None r widget_db in
  strconv.Atoi (param r "id") = inr 1
  /\ json.Decode (http.ReqBody r) zeroItem
     = (mkItem 0 "Widget2" "A widget" price_19_99, None)
  /\ NoDup (sql.ids (sql.store widget_db))
  /\ 1 ∈ sql.ids (sql.store widget_db)
  /\ param r' "id" = param r "id"
  /\ http.StatusCode updated.2 = 204
  /\ (serve GET_item None r' updated.1).2
     = json_response
         (item_json (stored 1 (mkItem 0 "Widget2" "A widget" price_19_99))).
Proof.
  intros r r' updated.
  assert (strconv.Atoi (param r "id") = inr 1) as Ha by reflexivity.
  assert (json.Decode (http.ReqBody r) zeroItem
          = (mkItem 0 "Widget2" "A widget" price_19_99, None)) as Hd
    by reflexivity.
  assert (NoDup (sql.ids (sql.store widget_db))) as Hnd
    by (vm_compute; apply NoDup_singleton).
  assert (1 ∈ sql.ids (sql.store widget_db)) as Hin by (vm_compute; left).
  split; [exact Ha |]. split; [exact Hd |]. split; [exact Hnd |].
  split; [exact Hin |]. split; [reflexivity |].
  exact (update_then_get r r' widget_db 1 _ Ha eq_refl Hd Hnd Hin).
Defined.

Lemma other_ids_are_untouched_witness :
  let r := item_request "1" no_body in
  let r' := item_request "2" no_body in
  (DELETE_item = PUT_item \/ DELETE_item = DELETE_item)
  /\ strconv.Atoi (param r "id") = inr 1
  /\ strconv.Atoi (param r' "id") = inr 2
  /\ 2 <> 1
  /\ (serve GET_item None r' (serve DELETE_item None r two_db).1).2
     = (serve GET_item None r' two_db).2.
Proof.
  intros r r'.
  assert (DELETE_item = PUT_item \/ DELETE_item = DELETE_item) as Hrt
    by (right; reflexivity).
  assert (strconv.Atoi (param r "id") = inr 1) as Ha by reflexivity.
  assert (strconv.Atoi (param r' "id") = inr 2) as Ha' by reflexivity.
  assert (2 <> 1) as Hne by lia.
  split; [exact Hrt |]. split; [exact Ha |]. split; [exact Ha' |].
  split; [exact Hne |].
  exact (other_ids_are_untouched DELETE_item None r r' two_db 1 2
           Hrt Ha Ha' Hne).
Defined.

Lemma create_then_list_witness :
  let r := items_request widget2 in
  let created := serve POST_items None r widget_db in
  let new := stored (sql.next_id (sql.store widget_db))
               (mkItem 0 "Widget2" "A widget" price_19_99) in
  json.Decode (http.ReqBody r) zeroItem
  = (mkItem 0 "Widget2" "A widget" price_19_99, None)
  /\ wf (sql.store widget_db)
  /\ sql.next_id (sql.store widget_db) <= strconv.maxInt
  /\ created.2 = json_response (item_json new)
  /\ (serve GET_items None r created.1).2
     = json_response
         (json.Array ((item_json <$> sql.rows (sql.store widget_db))
                      ++ [item_json new])).
Proof.
  intros r created new.
  assert (json.Decode (http.ReqBody r) zeroItem
          = (mkItem 0 "Widget2" "A widget" price_19_99, None)) as Hd
    by reflexivity.
  assert (sql.next_id (sql.store widget_db) <= strconv.maxInt) as Hmax
    by (vm_compute; discriminate).
  split; [exact Hd |]. split; [exact wf_widget_db |]. split; [exact Hmax |].
  exact (create_then_list r r widget_db _ Hd wf_widget_db Hmax).
Defined.

Lemma delete_of_absent_id_witness :
  let r := item_request "7" no_body in
  let out := serve DELETE_item None r widget_db in
  strconv.Atoi (param r "id") = inr 7
  /\ (7 ∉ sql.ids (sql.store widget_db))
  /\ http.StatusCode out.2 = 204
  /\ http.Body out.2 = []
  /\ sql.store out.1 = sql.store widget_db.
Proof.
  intros r out.
  assert (strconv.Atoi (param r "id") = inr 7) as Ha by reflexivity.
  assert (7 ∉ sql.ids (sql.store widget_db)) as Hnot
    by (vm_compute; intros H; inversion H as [| ? ? ? H']; inversion H').
  split; [exact Ha |]. split; [exact Hnot |].
  exact (delete_of_absent_id r widget_db 7 Ha Hnot).
Defined.

Lemma update_and_delete_are_idempotent_witness :
  let r := item_request "1" widget2 in
  let once := serve PUT_item None r widget_db in
  let twice := serve PUT_item None r once.1 in
  (PUT_item = PUT_item \/ PUT_item = DELETE_item)
  /\ twice.2 = once.2
  /\ sql.store twice.1 = sql.store once.1.
Proof.
  intros r once twice.
  assert (PUT_item = PUT_item \/ PUT_item = DELETE_item) as Hrt
    by (left; reflexivity).
  split; [exact Hrt |].
  exact (update_and_delete_are_idempotent PUT_item r widget_db Hrt).
Defined.

Lemma create_then_delete_witness :
  let r := items_request widget2 in
  let r' := item_request "2" no_body in
  let created := serve POST_items None r widget_db in
  let deleted := serve DELETE_item None r' created.1 in
  json.Decode (http.ReqBody r) zeroItem
  = (mkItem 0 "Widget2" "A widget" price_19_99, None)
  /\ wf (sql.store widget_db)
  /\ sql.next_id (sql.store widget_db) <= strconv.maxInt
  /\ strconv.Atoi (param r' "id") = inr (sql.next_id (sql.store widget_db))
  /\ returned_id created.2 = Some (sql.next_id (sql.store widget_db))
  /\ http.StatusCode deleted.2 = 204
  /\ sql.rows (sql.store deleted.1) = sql.rows (sql.store widget_db)
  /\ sql.next_id (sql.store deleted.1)
     = sql.next_id (sql.store widget_db) + 1.
Proof.
  intros r r' created deleted.
  assert (json.Decode (http.ReqBody r) zeroItem
          = (mkItem 0 "Widget2" "A widget" price_19_99, None)) as Hd
    by reflexivity.
  assert (sql.next_id (sql.store widget_db) <= strconv.maxInt) as Hmax
    by (vm_compute; discriminate).
  assert (strconv.Atoi (param r' "id")
          = inr (sql.next_id (sql.store widget_db))) as Ha by reflexivity.
  split; [exact Hd |]. split; [exact wf_widget_db |]. split; [exact Hmax |].
  split; [exact Ha |].
  exact (create_then_delete r r' widget_db _ Hd wf_widget_db Hmax Ha).
Defined.

Lemma body_id_is_ignored_witness :
  let with_id :=
    json.FirstValue
      (json.Object [("id", json.Num (json.Int false 99));
                    ("name", json.Str "Widget");
                    ("description", json.Str "A widget");
                    ("price", json.Num (json.Float price_9_99))]) in
  let r1 := items_request widget in
  let r2 := items_request with_id in
  (POST_items = POST_items \/ POST_items = PUT_item)
  /\ http.Vars r1 = http.Vars r2
  /\ json.Decode (http.ReqBody r1) zeroItem
     = (mkItem 0 "Widget" "A widget" price_9_99, None)
  /\ json.Decode (http.ReqBody r2) zeroItem
     = (mkItem 99 "Widget" "A widget" price_9_99, None)
  /\ serve POST_items None r1 widget_db = serve POST_items None r2 widget_db.
Proof.
  intros with_id r1 r2.
  assert (POST_items = POST_items \/ POST_items = PUT_item) as Hrt
    by (left; reflexivity).
  assert (json.Decode (http.ReqBody r1) zeroItem
          = (mkItem 0 "Widget" "A widget" price_9_99, None)) as Hd1
    by reflexivity.
  assert (json.Decode (http.ReqBody r2) zeroItem
          = (mkItem 99 "Widget" "A widget" price_9_99, None)) as Hd2
    by reflexivity.
  split; [exact Hrt |]. split; [reflexivity |]. split; [exact Hd1 |].
  split; [exact Hd2 |].
  exact (body_id_is_ignored POST_items None r1 r2 widget_db _ _ Hrt eq_refl
           Hd1 Hd2 eq_refl eq_refl eq_refl).
Defined.

Lemma missing_fields_are_zero_witness :
  let members := [("Name", json.Str "Widget"); ("colour", json.Str "red")] in
  let r := items_request (json.FirstValue (json.Object members)) in
  http.ReqBody r = json.FirstValue (json.Object members)
  /\ statement_of POST_items r = Some (sql.INSERT "Widget" "" PrimFloat.zero)
  /\ (Forall (λ m, json.field_of_key m.1 <> Some json.FName) members ->
      "Widget" = "")
  /\ (Forall (λ m, json.field_of_key m.1 <> Some json.FDescription) members ->
      "" = "")
  /\ (Forall (λ m, json.field_of_key m.1 <> Some json.FPrice) members ->
      PrimFloat.zero = PrimFloat.zero).
Proof.
  intros members r.
  assert (http.ReqBody r = json.FirstValue (json.Object members)) as Hb
    by reflexivity.
  assert (statement_of POST_items r
          = Some (sql.INSERT "Widget" "" PrimFloat.zero)) as Hq
    by reflexivity.
  split; [exact Hb |]. split; [exact Hq |].
  exact (missing_fields_are_zero r members "Widget" "" PrimFloat.zero Hb Hq).
Defined.

Lemma same_id_same_item_witness :
  let r1 := item_request "7" widget2 in
  let r2 := item_request "+007" widget2 in
  (PUT_item = GET_item \/ PUT_item = PUT_item \/ PUT_item = DELETE_item)
  /\ integer_string (param r1 "id") = true
  /\ integer_string (param r2 "id") = true
  /\ integer_value (param r1 "id") = integer_value (param r2 "id")
  /\ strconv.in_int (integer_value (param r1 "id")) = true
  /\ http.ReqBody r1 = http.ReqBody r2
  /\ serve PUT_item None r1 widget_db = serve PUT_item None r2 widget_db.
Proof.
  intros r1 r2.
  assert (PUT_item = GET_item \/ PUT_item = PUT_item \/ PUT_item = DELETE_item)
    as Hrt by (right; left; reflexivity).
  assert (integer_string (param r1 "id") = true) as H1 by reflexivity.
  assert (integer_string (param r2 "id") = true) as H2 by reflexivity.
  assert (integer_value (param r1 "id") = integer_value (param r2 "id"))
    as Hv by reflexivity.
  assert (strconv.in_int (integer_value (param r1 "id")) = true) as Hin
    by reflexivity.
  split; [exact Hrt |]. split; [exact H1 |]. split; [exact H2 |].
  split; [exact Hv |]. split; [exact Hin |]. split; [reflexivity |].
  exact (same_id_same_item PUT_item None r1 r2 widget_db Hrt H1 H2 Hv Hin
           eq_refl).
Defined.

Lemma unencodable_price_is_an_empty_200_witness :
  let it := mkItem 1 "Widget" "A widget" nan in
  let db := sql.mkDB (sql.mkStore [it] 2) [] in
  let r := item_request "1" no_body in
  strconv.Atoi (param r "id") = inr (ID it)
  /\ NoDup (sql.ids (sql.store db))
  /\ it ∈ sql.rows (sql.store db)
  /\ is_finite (Price it) = false
  /\ (serve GET_item None r db).2 = http.mkResponse 200 json_headers []
  /\ (serve GET_items None r db).2 = http.mkResponse 200 json_headers [].
Proof.
  intros it db r.
  assert (strconv.Atoi (param r "id") = inr (ID it)) as Ha by reflexivity.
  assert (NoDup (sql.ids (sql.store db))) as Hnd
    by (vm_compute; apply NoDup_singleton).
  assert (it ∈ sql.rows (sql.store db)) as Hin by (simpl; left).
  assert (is_finite (Price it) = false) as Hnf by reflexivity.
  split; [exact Ha |]. split; [exact Hnd |]. split; [exact Hin |].
  split; [exact Hnf |].
  exact (unencodable_price_is_an_empty_200 r db it Ha Hnd Hin Hnf).
Defined.


Lemma runs_keep_the_invariants_witness :
  let calls := [(POST_items, None, items_request widget);
                (PUT_item, Some "timeout", item_request "1" widget2);
                (DELETE_item, None, item_request "x" no_body)] in
  let db' := (serve_all calls new_db).1 in
  wf (sql.store new_db)
  /\ Forall finite_args (sql.sent new_db)
  /\ wf (sql.store db')
  /\ Forall finite_args (sql.sent db')
  /\ (length (sql.sent db') <= length (sql.sent new_db) + length calls)%nat.
Proof.
  intros calls db'.
  assert (Forall finite_args (sql.sent new_db)) as Hfin by constructor.
  split; [exact wf_empty |]. split; [exact Hfin |].
  exact (runs_keep_the_invariants calls new_db wf_empty Hfin).
Defined.

Lemma route_order_does_not_matter_witness :
  let regs :=
    [ mux.mkRegistration mux.Items "GET" GET_items;
      mux.mkRegistration mux.Items "POST" POST_items;
      mux.mkRegistration mux.Item_id "GET" GET_item;
      mux.mkRegistration mux.Item_id "PUT" PUT_item;
      mux.mkRegistration mux.Item_id "DELETE" DELETE_item ] in
  regs ≡ₚ mux.routes
  /\ mux.Match regs "DELETE" "/items/42"
     = mux.Match mux.routes "DELETE" "/items/42".
Proof.
  intros regs.
  assert (regs ≡ₚ mux.routes) as Hperm by apply perm_swap.
  split; [exact Hperm |].
  exact (route_order_does_not_matter regs "DELETE" "/items/42" Hperm).
Defined.

Lemma id_is_the_last_segment_witness :
  let vars : gmap string string := {[ "id" := "42" ]} in
  let seg := param (http.mkRequest vars no_body) "id" in
  mux.Match mux.routes "PUT" "/items/42" = Some (PUT_item, vars)
  /\ (PUT_item = GET_item \/ PUT_item = PUT_item \/ PUT_item = DELETE_item)
  /\ "/items/42" = "/items/" +:+ seg
  /\ seg <> ""
  /\ mux.no_slash seg = true
  /\ "PUT" = method_of PUT_item.
Proof.
  intros vars seg.
  assert (mux.Match mux.routes "PUT" "/items/42" = Some (PUT_item, vars))
    as Hm by reflexivity.
  assert (PUT_item = GET_item \/ PUT_item = PUT_item \/ PUT_item = DELETE_item)
    as Hrt by (right; left; reflexivity).
  split; [exact Hm |]. split; [exact Hrt |].
  exact (id_is_the_last_segment "PUT" "/items/42" PUT_item vars no_body
           Hm Hrt).
Defined.

Lemma every_id_has_a_path_witness :
  strconv.in_int (-5) = true
  /\ (DELETE_item = GET_item \/ DELETE_item = PUT_item
      \/ DELETE_item = DELETE_item)
  /\ exists vars,
       mux.Match mux.routes (method_of DELETE_item)
         ("/items/" +:+ strconv.Itoa (-5))
       = Some (DELETE_item, vars)
       /\ strconv.Atoi (param (http.mkRequest vars no_body) "id") = inr (-5).
Proof.
  assert (strconv.in_int (-5) = true) as Hin by reflexivity.
  assert (DELETE_item = GET_item \/ DELETE_item = PUT_item
          \/ DELETE_item = DELETE_item) as Hrt by (right; right; reflexivity).
  split; [exact Hin |]. split; [exact Hrt |].
  exact (every_id_has_a_path (-5) DELETE_item no_body Hin Hrt).
Defined.

Lemma errors_change_no_row_witness :
  let out := serve POST_items None (items_request no_body) widget_db in
  400 <= http.StatusCode out.2
  /\ sql.rows (sql.store out.1) = sql.rows (sql.store widget_db).
Proof.
  intros out.
  assert (400 <= http.StatusCode out.2) as Hc by (vm_compute; discriminate).
  split; [exact Hc |].
  exact (errors_change_no_row POST_items None (items_request no_body)
           widget_db Hc).
Defined.
